(** * gke-managed-certs: configuration tables, SslCertificate client and
      controller work-queue loop.

    A shallow embedding of [pkg/config/config.go], of the [ssl] package and
    of the queue-facing part of the [controller] package, followed by the
    properties established about them.

    Conventions.
    - A Go [error] value is an element of [error]; a possibly-nil error is
      an [option error] ([None] is [nil]).
    - A Go function returning [(x, err)] returns the pair; nothing is
      assumed about [x] when [err] is not nil.
    - Go maps are stdpp [gmap]s; reading an absent key yields the zero
      value, which is written out where the code relies on it.
    - Calls to collaborators (queue, lister, metrics, reconciliation engine,
      cloud API, logging) are effects: each one transforms the state of the
      collaborators and emits one event, so that the order of calls made by
      one invocation can be read off its event list. *)

From Stdlib Require Import ZArith Lia.
From Stdlib Require Import Ascii String.
From stdpp Require Import base tactics option list strings gmap.

Local Open Scope string_scope.
Local Open Scope list_scope.
Local Open Scope Z_scope.

(** ** Go errors *)

(** The dynamic shapes an [error] takes in this code base: the values made
    by [fmt.Errorf], the [*googleapi.Error] returned by the compute API, and
    any other implementation of the interface. *)
Inductive error : Type :=
| errorString (s : string)
| googleapi_Error (Code : Z) (Message : string)
| otherError (dynamicType : string) (s : string).

(** [err.Error()], which is what the verb [%v] prints for an error. *)
Definition Error (e : error) : string :=
  match e with
  | errorString s => s
  | googleapi_Error _ m => m
  | otherError _ s => s
  end.

(** ** Effects: collaborator state plus an ordered list of emitted events *)

Section Effects.
Context {S E : Type}.

Definition Eff (A : Type) : Type := S -> A * S * list E.

Definition ret {A} (a : A) : Eff A := fun s => (a, s, []).

Definition bind {A B} (m : Eff A) (k : A -> Eff B) : Eff B :=
  fun s =>
    let '(a, s1, e1) := m s in
    let '(b, s2, e2) := k a s1 in
    (b, s2, e1 ++ e2).

(** A call that returns a value: the collaborator computes the answer and
    its next state, and the call is recorded. *)
Definition call {A} (ev : E) (f : S -> A * S) : Eff A :=
  fun s => let '(a, s') := f s in (a, s', [ev]).

(** A call that returns nothing. *)
Definition call_ (ev : E) (f : S -> S) : Eff unit :=
  fun s => (tt, f s, [ev]).

(** [for _, x := range xs { body x }] *)
Fixpoint range {A} (xs : list A) (body : A -> Eff unit) : Eff unit :=
  match xs with
  | [] => ret tt
  | x :: xs' => bind (body x) (fun _ => range xs' body)
  end.

(** [defer d] followed by the rest of the function body: [d] runs when
    the function returns, after everything in [rest], whichever [return]
    statement of [rest] is taken. *)
Definition defer {A} (d : Eff unit) (rest : Eff A) : Eff A :=
  bind rest (fun r => bind d (fun _ => ret r)).

Definition result {A} (x : A * S * list E) : A := x.1.1.
Definition state {A} (x : A * S * list E) : S := x.1.2.
Definition events {A} (x : A * S * list E) : list E := x.2.
End Effects.

Arguments Eff : clear implicits.

Declare Scope eff_scope.
Delimit Scope eff_scope with eff.
Notation "x <- c ;; k" := (bind c (fun x => k))
  (at level 100, c at next level, right associativity) : eff_scope.
Notation "c ;;; k" := (bind c (fun _ => k))
  (at level 100, right associativity) : eff_scope.

(** ** Package config *)

Module config.

Definition managedActive : string := "Active".
Definition managedEmpty : string := "".
Definition managedFailedCaaChecking : string := "FailedCaaChecking".
Definition managedFailedCaaForbidden : string := "FailedCaaForbidden".
Definition managedFailedNotVisible : string := "FailedNotVisible".
Definition managedFailedRateLimited : string := "FailedRateLimited".
Definition managedProvisioning : string := "Provisioning".
Definition managedProvisioningFailed : string := "ProvisioningFailed".
Definition managedProvisioningFailedPermanently : string :=
  "ProvisioningFailedPermanently".
Definition managedRenewalFailed : string := "RenewalFailed".

Definition SslCertificateNamePrefix : string := "mcrt-".

Definition sslActive : string := "ACTIVE".
Definition sslEmpty : string := "".
Definition sslFailedCaaChecking : string := "FAILED_CAA_CHECKING".
Definition sslFailedCaaForbidden : string := "FAILED_CAA_FORBIDDEN".
Definition sslFailedNotVisible : string := "FAILED_NOT_VISIBLE".
Definition sslFailedRateLimited : string := "FAILED_RATE_LIMITED".
Definition sslManagedCertificateStatusUnspecified : string :=
  "MANAGED_CERTIFICATE_STATUS_UNSPECIFIED".
Definition sslProvisioning : string := "PROVISIONING".
Definition sslProvisioningFailed : string := "PROVISIONING_FAILED".
Definition sslProvisioningFailedPermanently : string :=
  "PROVISIONING_FAILED_PERMANENTLY".
Definition sslRenewalFailed : string := "RENEWAL_FAILED".

(** [oauth2.TokenSource] values, by the constructor that made them. *)
Inductive TokenSource : Type :=
| NewAltTokenSource (tokenURL tokenBody : string)
| DefaultTokenSource (scope : string)
| ComputeTokenSource (account : string).

(** [time.Duration]: a count of nanoseconds. *)
Definition Duration : Type := Z.
Definition Second : Duration := 1000000000.

Record computeConfig : Type := {
  TokenSource_ : option TokenSource;
  ProjectID : string;
  Timeout : Duration
}.

Record certificateStatusConfig : Type := {
  Certificate : gmap string string;
  Domain : gmap string string
}.

Record Config : Type := {
  CertificateStatus : certificateStatusConfig;
  Compute : computeConfig;
  SslCertificateNamePrefix_ : string
}.

(** The [Global] section of [gce.ConfigFile], as far as it is read. *)
Record ConfigFile : Type := {
  TokenURL : string;
  TokenBody : string;
  Global_ProjectID : string
}.

(** What the process can observe of its surroundings: the file system,
    the metadata server, its environment variables and the default
    credentials lookup. An open file is identified by its path. *)
Record Env : Type := {
  os_Open : string -> option error;
  gcfg_ReadInto : string -> ConfigFile * option error;
  metadata_ProjectID : string * option error;
  os_Getenv : string -> string;
  google_DefaultTokenSource : string -> option TokenSource * option error
}.

(** [compute.ComputeScope] *)
Definition ComputeScope : string := "https://www.googleapis.com/auth/compute".

(** The [glog] lines and the deferred [Close] of the configuration file do
    not influence what is returned and are not represented. *)
Definition getTokenSourceAndProjectID (env : Env) (gceConfigFilePath : string)
  : option TokenSource * string * option error :=
  if negb (String.eqb gceConfigFilePath "") then
    match os_Open env gceConfigFilePath with
    | Some err =>
        (None, "",
         Some (errorString ("Could not open cloud provider configuration "
                            +:+ gceConfigFilePath +:+ ": " +:+ Error err)))
    | None =>
        let '(cfg, err) := gcfg_ReadInto env gceConfigFilePath in
        match err with
        | Some err =>
            (None, "", Some (errorString ("Could not read config " +:+ Error err)))
        | None =>
            (Some (NewAltTokenSource (TokenURL cfg) (TokenBody cfg)),
             Global_ProjectID cfg, None)
        end
    end
  else
    let '(projectID, err) := metadata_ProjectID env in
    match err with
    | Some err =>
        (None, "", Some (errorString ("Could not fetch project id: " +:+ Error err)))
    | None =>
        if (0 <? Z.of_nat (String.length (os_Getenv env "GOOGLE_APPLICATION_CREDENTIALS")))
        then
          let '(tokenSource, err) := google_DefaultTokenSource env ComputeScope in
          (tokenSource, projectID, err)
        else
          (Some (ComputeTokenSource ""), projectID, None)
    end.

(** The two tables, built by the same sequence of assignments as in [New];
    the statement executed last is the outermost insert. *)
Definition domainStatuses : gmap string string :=
  <[sslProvisioning := managedProvisioning]>
  (<[sslFailedRateLimited := managedFailedRateLimited]>
  (<[sslFailedNotVisible := managedFailedNotVisible]>
  (<[sslFailedCaaForbidden := managedFailedCaaForbidden]>
  (<[sslFailedCaaChecking := managedFailedCaaChecking]>
  (<[sslActive := managedActive]> ∅))))).

Definition certificateStatuses : gmap string string :=
  <[sslRenewalFailed := managedRenewalFailed]>
  (<[sslProvisioningFailedPermanently := managedProvisioningFailedPermanently]>
  (<[sslProvisioningFailed := managedProvisioningFailed]>
  (<[sslProvisioning := managedProvisioning]>
  (<[sslManagedCertificateStatusUnspecified := managedEmpty]>
  (<[sslEmpty := managedEmpty]>
  (<[sslActive := managedActive]> ∅)))))).

Definition New (env : Env) (gceConfigFilePath : string)
  : option Config * option error :=
  let '(tokenSource, projectID, err) :=
    getTokenSourceAndProjectID env gceConfigFilePath in
  match err with
  | Some err => (None, Some err)
  | None =>
      (Some {| CertificateStatus :=
                 {| Certificate := certificateStatuses;
                    Domain := domainStatuses |};
               Compute :=
                 {| TokenSource_ := tokenSource;
                    ProjectID := projectID;
                    Timeout := 30 * Second |};
               SslCertificateNamePrefix_ := SslCertificateNamePrefix |},
       None)
  end.

End config.

(** ** Package ssl *)

Module compute.

(** [compute.SslCertificateManagedSslCertificate], the fields the
    controller reads or writes. *)
Record SslCertificateManagedSslCertificate : Type := {
  Domains : list string;
  Status : string;
  DomainStatus : gmap string string
}.

Record SslCertificate : Type := {
  Managed : option SslCertificateManagedSslCertificate;
  Name : string;
  Type_ : string
}.

Record Operation : Type := { OperationName : string }.

(** The requests sent to the [SslCertificates] service, in the order they
    are executed with [Do()]. *)
Inductive request : Type :=
| Insert_Do (project : string) (sslcertificate : SslCertificate)
| Delete_Do (project sslCertificate : string)
| Get_Do (project sslCertificate : string).

(** [*compute.SslCertificatesService] over a provider whose state is [S]:
    what each request answers there and the state it leaves. *)
Record SslCertificatesService (S : Type) : Type := {
  Insert : string -> SslCertificate -> S -> (option Operation * option error) * S;
  Delete : string -> string -> S -> (option Operation * option error) * S;
  Get : string -> string -> S -> (option SslCertificate * option error) * S
}.
Arguments Insert {S}.
Arguments Delete {S}.
Arguments Get {S}.

(** [*http.Client] built by [oauth2.NewClient], with its [Timeout]. *)
Record Client : Type := {
  Source : option config.TokenSource;
  Client_Timeout : config.Duration
}.

End compute.

Module ssl.
Import compute.

Definition typeManaged : string := "MANAGED".

Section Ssl.
Context {S : Type}.

(** [http.IsNotFound] of [pkg/utils/http], whose source is not part of
    the files at hand: the classifier of errors into not-found and
    other, taken as a parameter. *)
Variable IsNotFound : error -> bool.

(** [compute.New]: a service, or the error that prevented building it. *)
Variable compute_New : Client -> SslCertificatesService S + error.

Record sslImpl : Type := {
  service : SslCertificatesService S;
  projectID : string
}.

Definition New (cfg : config.Config) : option sslImpl * option error :=
  (* oauth2.NewClient, then client.Timeout = config.Compute.Timeout *)
  let client := {| Source := config.TokenSource_ (config.Compute cfg);
                   Client_Timeout := config.Timeout (config.Compute cfg) |} in
  match compute_New client with
  | inr err => (None, Some err)
  | inl service =>
      (Some {| service := service;
               projectID := config.ProjectID (config.Compute cfg) |}, None)
  end.

(** Create creates a new SslCertificate resource. *)
Definition Create (s : sslImpl) (name : string) (domains : list string)
  : Eff S request (option error) :=
  let sslCertificate :=
    {| Managed := Some {| Domains := domains; Status := "";
                          DomainStatus := ∅ |};
       Name := name;
       Type_ := typeManaged |} in
  (r <- call (Insert_Do (projectID s) sslCertificate)
             (Insert (service s) (projectID s) sslCertificate) ;;
   ret r.2)%eff.

(** Delete deletes an SslCertificate resource. *)
Definition Delete (s : sslImpl) (name : string) : Eff S request (option error) :=
  (r <- call (Delete_Do (projectID s) name)
             (Delete (service s) (projectID s) name) ;;
   ret r.2)%eff.

(** Get fetches an SslCertificate resource. *)
Definition Get (s : sslImpl) (name : string)
  : Eff S request (option SslCertificate * option error) :=
  call (Get_Do (projectID s) name) (Get (service s) (projectID s) name).

(** Exists returns true if an SslCertificate exists, false if it is
    deleted. Error is not nil if an error has occurred. *)
Definition Exists (s : sslImpl) (name : string)
  : Eff S request (bool * option error) :=
  (r <- Get s name ;;
   match r.2 with
   | None => ret (true, None)
   | Some err =>
       if IsNotFound err then ret (false, None)
       else ret (false, Some err)
   end)%eff.

End Ssl.

Arguments sslImpl : clear implicits.

End ssl.

(** ** Package controller *)

Module controller.

(** Modelled from the spec: the [ManagedCertificate] API type and its
    status, declared in [pkg/apis], which is not among the files at hand:
    certificate name, certificate status, and a status per domain. *)
Record ManagedCertificateStatus : Type := {
  CertificateName : string;
  CertificateStatus : string;
  DomainStatus : list (string * string)
}.

Record ManagedCertificate : Type := {
  Namespace : string;
  Name : string;
  Status : ManagedCertificateStatus
}.

(** Modelled from the spec: [types.CertId] of [pkg/utils/types], not among
    the files at hand: the composite key (namespace, name). *)
Record CertId : Type := { CertId_Namespace : string; CertId_Name : string }.

Definition NewCertId (namespace name : string) : CertId :=
  {| CertId_Namespace := namespace; CertId_Name := name |}.

(** An [interface{}] value, by dynamic type: what [enqueue] receives and
    what the work queue holds. *)
Inductive interface : Type :=
| of_string (s : string)
| of_ManagedCertificate (mcrt : ManagedCertificate)
| of_other (dynamicType : string).

(** Go's [int] on the 64-bit targets the controller is built for. *)
Definition wrap_int (z : Z) : Z := (z + 2 ^ 63) mod 2 ^ 64 - 2 ^ 63.

(** Every call the controller makes to a collaborator. *)
Inductive event : Type :=
| lister_List
| metrics_ObserveManagedCertificatesStatuses (statuses : gmap string Z)
| queue_Get
| queue_AddRateLimited (item : interface)
| queue_Forget (item : interface)
| queue_Done (item : interface)
| sync_ManagedCertificate (id : CertId)
| runtime_HandleError (err : error)
| glog_Info (msg : string)
| glog_Infof (format : string) (arg : interface).

(** The collaborators held by the [controller] struct, over a joint
    state [S]. *)
Record Lister (S : Type) : Type := {
  List_ : S -> (list ManagedCertificate * option error) * S
}.
Record Metrics (S : Type) : Type := {
  ObserveManagedCertificatesStatuses : gmap string Z -> S -> S
}.
Record Queue (S : Type) : Type := {
  Get : S -> (interface * bool) * S;
  AddRateLimited : interface -> S -> S;
  Forget : interface -> S -> S;
  Done : interface -> S -> S
}.
Record Sync (S : Type) : Type := {
  ManagedCertificate_ : CertId -> S -> option error * S
}.
Arguments List_ {S}.
Arguments ObserveManagedCertificatesStatuses {S}.
Arguments Get {S}.
Arguments AddRateLimited {S}.
Arguments Forget {S}.
Arguments Done {S}.
Arguments ManagedCertificate_ {S}.

Record controller (S : Type) : Type := {
  lister : Lister S;
  metrics : Metrics S;
  queue : Queue S;
  sync : Sync S
}.
Arguments lister {S}.
Arguments metrics {S}.
Arguments queue {S}.
Arguments sync {S}.

Section Controller.
Context {S : Type}.

(** [cache.MetaNamespaceKeyFunc] and [cache.SplitMetaNamespaceKey] *)
Variable MetaNamespaceKeyFunc : interface -> string * option error.
Variable SplitMetaNamespaceKey : string -> string * string * option error.

(** What the verb [%T] prints for a value. *)
Variable typeName : interface -> string.

Variable c : controller S.

Local Open Scope eff_scope.

Definition enqueue (obj : interface) : Eff S event unit :=
  let '(key, err) := MetaNamespaceKeyFunc obj in
  match err with
  | Some err => call_ (runtime_HandleError err) id
  | None =>
      call_ (glog_Infof "Enqueuing ManagedCertificate: %+v" obj) id ;;;
      call_ (queue_AddRateLimited (of_string key))
            (AddRateLimited (queue c) (of_string key))
  end.

(** The first loop of [enqueueAll]: [names] and the histogram
    [statuses]; a key read for the first time counts from zero. *)
Definition tally (acc : list string * gmap string Z) (mcrt : ManagedCertificate)
  : list string * gmap string Z :=
  let '(names, statuses) := acc in
  (names ++ [Name mcrt],
   <[CertificateStatus (Status mcrt) :=
       wrap_int (default 0 (statuses !! CertificateStatus (Status mcrt)) + 1)]>
     statuses).

Definition enqueueAll : Eff S event unit :=
  r <- call lister_List (List_ (lister c)) ;;
  let '(mcrts, err) := r in
  match err with
  | Some err => call_ (runtime_HandleError err) id
  | None =>
      if (Z.of_nat (length mcrts) <=? 0) then
        call_ (glog_Info "No ManagedCertificates found in cluster") id
      else
        let '(names, statuses) := fold_left tally mcrts ([], ∅) in
        range mcrts (fun mcrt => enqueue (of_ManagedCertificate mcrt)) ;;;
        call_ (metrics_ObserveManagedCertificatesStatuses statuses)
              (ObserveManagedCertificatesStatuses (metrics c) statuses)
  end.

Definition handle (key : string) : Eff S event (option error) :=
  let '(namespace, name, err) := SplitMetaNamespaceKey key in
  match err with
  | Some err => ret (Some err)
  | None =>
      (* the [err] of the [if] statement shadows the outer one *)
      err' <- call (sync_ManagedCertificate (NewCertId namespace name))
                   (ManagedCertificate_ (sync c) (NewCertId namespace name)) ;;
      match err' with
      | Some err' => ret (Some err')
      | None => ret err
      end
  end.

Definition processNextManagedCertificate : Eff S event unit :=
  r <- call queue_Get (Get (queue c)) ;;
  let '(obj, shutdown) := r in
  if shutdown then ret tt
  else
    defer (call_ (queue_Done obj) (Done (queue c) obj))
      match obj with
      | of_string key =>
          err <- handle key ;;
          match err with
          | None => call_ (queue_Forget obj) (Forget (queue c) obj)
          | Some err =>
              call_ (queue_AddRateLimited obj) (AddRateLimited (queue c) obj) ;;;
              call_ (runtime_HandleError err) id
          end
      | _ =>
          call_ (queue_Forget obj) (Forget (queue c) obj) ;;;
          call_ (runtime_HandleError
                   (errorString ("Expected string in queue but got "
                                 +:+ typeName obj))) id
      end.

End Controller.

End controller.

(** The two functions of client-go's [cache] package that the controller
    calls, over the values the controller passes to them. *)
Module cache.

(** [strings.Split(s, "/")], with [acc] the characters of the current
    part, last one first. *)
Fixpoint split_slash (s : string) (acc : string) : list string :=
  match s with
  | EmptyString => [String.rev acc]
  | String c s' =>
      if Ascii.eqb c "/"%char then String.rev acc :: split_slash s' EmptyString
      else split_slash s' (String c acc)
  end.

(** The double quote character, which the verb [%q] puts around a key. *)
Definition quote : string := String (Ascii.ascii_of_nat 34) EmptyString.

Definition SplitMetaNamespaceKey (key : string) : string * string * option error :=
  match split_slash key EmptyString with
  | [name] => ("", name, None)
  | [namespace; name] => (namespace, name, None)
  | _ => ("", "", Some (errorString ("unexpected key format: "
                                     +:+ quote +:+ key +:+ quote)))
  end.

(** [cache.MetaNamespaceKeyFunc]: only an API object has metadata; the
    key is [namespace/name], or [name] alone when the namespace is
    empty. *)
Definition MetaNamespaceKeyFunc (obj : controller.interface)
  : string * option error :=
  match obj with
  | controller.of_ManagedCertificate mcrt =>
      if (0 <? Z.of_nat (String.length (controller.Namespace mcrt)))
      then (controller.Namespace mcrt +:+ "/" +:+ controller.Name mcrt, None)
      else (controller.Name mcrt, None)
  | _ => ("", Some (errorString "object has no meta: object does not implement the Object interfaces"))
  end.

End cache.


(** ** Concrete surroundings used in the examples *)

Module examples.

(** A process outside GKE with no credentials file: the project id comes
    from the metadata server and the token source is the default one. *)
Definition env_default : config.Env :=
  {| config.os_Open := fun _ => Some (errorString "no such file or directory");
     config.gcfg_ReadInto := fun _ =>
       ({| config.TokenURL := ""; config.TokenBody := "";
           config.Global_ProjectID := "" |}, Some (errorString "EOF"));
     config.metadata_ProjectID := ("my-project", None);
     config.os_Getenv := fun _ => "";
     config.google_DefaultTokenSource := fun _ =>
       (None, Some (errorString "could not find default credentials")) |}.

Definition cfg_default : config.Config :=
  {| config.CertificateStatus :=
       {| config.Certificate := config.certificateStatuses;
          config.Domain := config.domainStatuses |};
     config.Compute :=
       {| config.TokenSource_ := Some (config.ComputeTokenSource "");
          config.ProjectID := "my-project";
          config.Timeout := 30000000000 |};
     config.SslCertificateNamePrefix_ := "mcrt-" |}.

(** A project holding its certificates by name: inserting a name that
    exists is a conflict (409), deleting or fetching one that does not is
    not found (404). *)
Definition store : Type := gmap string compute.SslCertificate.

Definition store_service : compute.SslCertificatesService store :=
  {| compute.Insert := fun _ cert st =>
       match st !! compute.Name cert with
       | Some _ => ((None, Some (googleapi_Error 409 "alreadyExists")), st)
       | None => ((Some {| compute.OperationName := "insert" |}, None),
                  <[compute.Name cert := cert]> st)
       end;
     compute.Delete := fun _ name st =>
       match st !! name with
       | Some _ => ((Some {| compute.OperationName := "delete" |}, None),
                    delete name st)
       | None => ((None, Some (googleapi_Error 404 "notFound")), st)
       end;
     compute.Get := fun _ name st =>
       match st !! name with
       | Some cert => ((Some cert, None), st)
       | None => ((None, Some (googleapi_Error 404 "notFound")), st)
       end |}.

(** A project whose API is out of service: every request fails with 503. *)
Definition unavailable_service : compute.SslCertificatesService store :=
  {| compute.Insert := fun _ _ st =>
       ((None, Some (googleapi_Error 503 "backendError")), st);
     compute.Delete := fun _ _ st =>
       ((None, Some (googleapi_Error 503 "backendError")), st);
     compute.Get := fun _ _ st =>
       ((None, Some (googleapi_Error 503 "backendError")), st) |}.

(** A classifier of errors: not found is the API error with code 404. *)
Definition IsNotFound (err : error) : bool :=
  match err with
  | googleapi_Error 404 _ => true
  | _ => false
  end.

Definition ssl_store : ssl.sslImpl store :=
  {| ssl.service := store_service; ssl.projectID := "my-project" |}.

Definition ssl_unavailable : ssl.sslImpl store :=
  {| ssl.service := unavailable_service; ssl.projectID := "my-project" |}.

Definition site_certificate : compute.SslCertificate :=
  {| compute.Managed :=
       Some {| compute.Domains := ["example.com"];
               compute.Status := "PROVISIONING";
               compute.DomainStatus := {[ "example.com" := "FAILED_CAA_CHECKING" ]} |};
     compute.Name := "mcrt-site";
     compute.Type_ := "MANAGED" |}.

(** A cluster as the controller sees it: what the lister returns, the
    items waiting in the work queue (first one first; an empty queue is one
    that is shutting down), and what the reconciliation engine answers for
    each certificate. *)
Record cluster : Type := {
  listing : list controller.ManagedCertificate * option error;
  items : list controller.interface;
  reconcile : controller.CertId -> option error
}.

Definition cluster_controller : controller.controller cluster :=
  {| controller.lister :=
       {| controller.List_ := fun st => (listing st, st) |};
     controller.metrics :=
       {| controller.ObserveManagedCertificatesStatuses := fun _ st => st |};
     controller.queue :=
       {| controller.Get := fun st =>
            match items st with
            | [] => ((controller.of_other "nil", true), st)
            | obj :: rest =>
                ((obj, false),
                 {| listing := listing st; items := rest;
                    reconcile := reconcile st |})
            end;
          controller.AddRateLimited := fun obj st =>
            {| listing := listing st; items := items st ++ [obj];
               reconcile := reconcile st |};
          controller.Forget := fun _ st => st;
          controller.Done := fun _ st => st |};
     controller.sync :=
       {| controller.ManagedCertificate_ := fun id st => (reconcile st id, st) |} |}.

Definition typeName (obj : controller.interface) : string :=
  match obj with
  | controller.of_string _ => "string"
  | controller.of_ManagedCertificate _ => "*ManagedCertificate"
  | controller.of_other t => t
  end.

Definition site : controller.ManagedCertificate :=
  {| controller.Namespace := "default";
     controller.Name := "site";
     controller.Status :=
       {| controller.CertificateName := "mcrt-site";
          controller.CertificateStatus := "Provisioning";
          controller.DomainStatus := [("example.com", "FailedCaaChecking")] |} |}.

Definition shop : controller.ManagedCertificate :=
  {| controller.Namespace := "default";
     controller.Name := "shop";
     controller.Status :=
       {| controller.CertificateName := "mcrt-shop";
          controller.CertificateStatus := "Active";
          controller.DomainStatus := [("shop.example.com", "Active")] |} |}.

Definition always_succeeds : controller.CertId -> option error := fun _ => None.
Definition always_fails : controller.CertId -> option error :=
  fun _ => Some (googleapi_Error 503 "backendError").

Definition cluster_of (l : list controller.ManagedCertificate * option error)
  (q : list controller.interface) (r : controller.CertId -> option error)
  : cluster :=
  {| listing := l; items := q; reconcile := r |}.

(** A cluster with one certificate, an idle queue and a healthy engine. *)
Definition one_certificate : cluster :=
  cluster_of ([site], None) [] always_succeeds.

Definition two_certificates : cluster :=
  cluster_of ([site; shop], None) [] always_succeeds.

Definition no_certificate : cluster :=
  cluster_of ([], None) [] always_succeeds.

Definition lister_down : cluster :=
  cluster_of ([], Some (errorString "cache not synced")) [] always_succeeds.

(** Queues holding one item: a well-formed key, a key with too many
    parts, and a value that is not a string. *)
Definition site_queued (r : controller.CertId -> option error) : cluster :=
  cluster_of ([site], None) [controller.of_string "default/site"] r.

Definition malformed_key_queued : cluster :=
  cluster_of ([site], None) [controller.of_string "a/b/c"] always_succeeds.

Definition number_queued : cluster :=
  cluster_of ([site], None) [controller.of_other "int"] always_succeeds.

Definition shutting_down : cluster :=
  cluster_of ([site], None) [] always_succeeds.

End examples.

(** ** More surroundings *)

Module surroundings.

(** A GKE node: the cloud provider configuration file can be read. The
    metadata server and the default credentials are out of reach. *)
Definition env_gke : config.Env :=
  {| config.os_Open := fun path =>
       if String.eqb path "/etc/gce.conf" then None
       else Some (errorString ("open " +:+ path +:+ ": no such file or directory"));
     config.gcfg_ReadInto := fun _ =>
       ({| config.TokenURL := "https://token.example/";
           config.TokenBody := "body";
           config.Global_ProjectID := "gke-project" |}, None);
     config.metadata_ProjectID := ("", Some (errorString "metadata: not on GCE"));
     config.os_Getenv := fun _ => "";
     config.google_DefaultTokenSource := fun _ =>
       (None, Some (errorString "could not find default credentials")) |}.

(** The same node seen from a process that can also reach the metadata
    server and has a credentials file. *)
Definition env_gke_with_metadata : config.Env :=
  {| config.os_Open := config.os_Open env_gke;
     config.gcfg_ReadInto := config.gcfg_ReadInto env_gke;
     config.metadata_ProjectID := ("other-project", None);
     config.os_Getenv := fun _ => "/secrets/key.json";
     config.google_DefaultTokenSource := fun scope =>
       (Some (config.DefaultTokenSource scope), None) |}.

(** Outside GKE, with a credentials file that cannot be used. *)
Definition env_bad_credentials : config.Env :=
  {| config.os_Open := config.os_Open env_gke;
     config.gcfg_ReadInto := config.gcfg_ReadInto env_gke;
     config.metadata_ProjectID := ("other-project", None);
     config.os_Getenv := fun name =>
       if String.eqb name "GOOGLE_APPLICATION_CREDENTIALS"
       then "/secrets/key.json" else "";
     config.google_DefaultTokenSource := fun _ =>
       (None, Some (errorString "could not find default credentials")) |}.

(** A node with the configuration file of [env_gke] where no path is
    given to the controller, and the metadata server is the one of
    [examples.env_default]. *)
Definition env_default_on_gke : config.Env :=
  {| config.os_Open := config.os_Open env_gke;
     config.gcfg_ReadInto := config.gcfg_ReadInto env_gke;
     config.metadata_ProjectID := ("my-project", None);
     config.os_Getenv := fun _ => "";
     config.google_DefaultTokenSource :=
       config.google_DefaultTokenSource examples.env_default |}.

End surroundings.

(** ** Reading event lists *)

Definition is_enqueue (ev : controller.event) : bool :=
  match ev with controller.queue_AddRateLimited _ => true | _ => false end.

Definition is_metrics (ev : controller.event) : bool :=
  match ev with
  | controller.metrics_ObserveManagedCertificatesStatuses _ => true
  | _ => false
  end.

Definition is_Forget (ev : controller.event) : bool :=
  match ev with controller.queue_Forget _ => true | _ => false end.

Definition is_Done (ev : controller.event) : bool :=
  match ev with controller.queue_Done _ => true | _ => false end.

(** Every metrics call of [t] comes before every enqueue of [t]. *)
Definition metrics_before_enqueues (t : list controller.event) : Prop :=
  forall i j ev1 ev2,
    t !! i = Some ev1 -> is_metrics ev1 = true ->
    t !! j = Some ev2 -> is_enqueue ev2 = true ->
    (i < j)%nat.

(** Every enqueue of [t] comes before every metrics call of [t]. *)
Definition enqueues_before_metrics (t : list controller.event) : Prop :=
  forall i j ev1 ev2,
    t !! i = Some ev1 -> is_enqueue ev1 = true ->
    t !! j = Some ev2 -> is_metrics ev2 = true ->
    (i < j)%nat.

(** The item [obj] is dropped in [t]: [Forget] is called on it and it is
    not added to the queue again. *)
Definition dropped (obj : controller.interface) (t : list controller.event) : Prop :=
  (exists i, t !! i = Some (controller.queue_Forget obj)) /\
  (forall i, t !! i <> Some (controller.queue_AddRateLimited obj)).

(** How many of the listed resources carry the certificate status [status]. *)
Definition count_status (status : string) (mcrts : list controller.ManagedCertificate)
  : nat :=
  length (List.filter
            (fun mcrt =>
               String.eqb (controller.CertificateStatus (controller.Status mcrt)) status)
            mcrts).

(** The calls one [enqueue obj] makes: the error report when no key can be
    derived from [obj], the log line and the rate-limited add otherwise. *)
Definition enqueue_events
  (MetaNamespaceKeyFunc : controller.interface -> string * option error)
  (obj : controller.interface) : list controller.event :=
  match MetaNamespaceKeyFunc obj with
  | (_, Some err) => [controller.runtime_HandleError err]
  | (key, None) =>
      [controller.glog_Infof "Enqueuing ManagedCertificate: %+v" obj;
       controller.queue_AddRateLimited (controller.of_string key)]
  end.

(** ** Reading requests and more events *)

(** The project a request is addressed to. *)
Definition request_project (r : compute.request) : string :=
  match r with
  | compute.Insert_Do project _ => project
  | compute.Delete_Do project _ => project
  | compute.Get_Do project _ => project
  end.

Definition is_sync (ev : controller.event) : bool :=
  match ev with controller.sync_ManagedCertificate _ => true | _ => false end.

Definition is_HandleError (ev : controller.event) : bool :=
  match ev with controller.runtime_HandleError _ => true | _ => false end.

(** The queue after one [enqueue obj]: untouched when no key can be derived
    from [obj], with the key added otherwise. *)
Definition enqueue_state {S : Type}
  (MetaNamespaceKeyFunc : controller.interface -> string * option error)
  (c : controller.controller S) (obj : controller.interface) (st : S) : S :=
  match MetaNamespaceKeyFunc obj with
  | (_, Some _) => st
  | (key, None) =>
      controller.AddRateLimited (controller.queue c) (controller.of_string key) st
  end.

(** The rate-limited add one [enqueue obj] makes, if any. *)
Definition enqueue_adds
  (MetaNamespaceKeyFunc : controller.interface -> string * option error)
  (obj : controller.interface) : list controller.event :=
  match MetaNamespaceKeyFunc obj with
  | (_, Some _) => []
  | (key, None) => [controller.queue_AddRateLimited (controller.of_string key)]
  end.

(** The sum of the counts of a histogram. *)
Definition total (statuses : gmap string Z) : Z :=
  map_fold (fun _ n acc => n + acc) 0 statuses.

(** ** The tables as the specification lists them *)

Definition certificate_table : list (string * string) :=
  [ ("ACTIVE", "Active");
    ("", "");
    ("MANAGED_CERTIFICATE_STATUS_UNSPECIFIED", "");
    ("PROVISIONING", "Provisioning");
    ("PROVISIONING_FAILED", "ProvisioningFailed");
    ("PROVISIONING_FAILED_PERMANENTLY", "ProvisioningFailedPermanently");
    ("RENEWAL_FAILED", "RenewalFailed") ].

Definition domain_table : list (string * string) :=
  [ ("ACTIVE", "Active");
    ("FAILED_CAA_CHECKING", "FailedCaaChecking");
    ("FAILED_CAA_FORBIDDEN", "FailedCaaForbidden");
    ("FAILED_NOT_VISIBLE", "FailedNotVisible");
    ("FAILED_RATE_LIMITED", "FailedRateLimited");
    ("PROVISIONING", "Provisioning") ].


(** * Properties *)

(** ** The status tables of [config.New] *)

Section StatusTables.
Import config.

Lemma New_Some env path cfg :
  (New env path).1 = Some cfg ->
  Certificate (CertificateStatus cfg) = certificateStatuses /\
  Domain (CertificateStatus cfg) = domainStatuses.
Proof.
  unfold New.
  destruct (getTokenSourceAndProjectID env path) as [[ts pid] [err|]];
    simpl; intros H; [discriminate|].
  injection H as <-. split; reflexivity.
Qed.

Lemma New_env_default : New examples.env_default "" = (Some examples.cfg_default, None).
Proof. reflexivity. Qed.

Lemma certificateStatuses_eq : certificateStatuses = list_to_map certificate_table.
Proof. apply (bool_decide_unpack _). vm_compute. exact I. Qed.

Lemma domainStatuses_eq : domainStatuses = list_to_map domain_table.
Proof. apply (bool_decide_unpack _). vm_compute. exact I. Qed.

Lemma certificate_table_NoDup : NoDup certificate_table.*1.
Proof. apply (bool_decide_unpack _). vm_compute. exact I. Qed.

Lemma domain_table_NoDup : NoDup domain_table.*1.
Proof. apply (bool_decide_unpack _). vm_compute. exact I. Qed.

Lemma certificateStatuses_lookup k v :
  certificateStatuses !! k = Some v <-> (k, v) ∈ certificate_table.
Proof.
  rewrite certificateStatuses_eq. symmetry.
  apply elem_of_list_to_map, certificate_table_NoDup.
Qed.

Lemma domainStatuses_lookup k v :
  domainStatuses !! k = Some v <-> (k, v) ∈ domain_table.
Proof.
  rewrite domainStatuses_eq. symmetry.
  apply elem_of_list_to_map, domain_table_NoDup.
Qed.

(** C4. When [config.New] succeeds, the certificate-level table of the
    configuration it returns is exactly the seven-entry map
    ACTIVE -> Active, "" -> "", MANAGED_CERTIFICATE_STATUS_UNSPECIFIED -> "",
    PROVISIONING -> Provisioning, PROVISIONING_FAILED -> ProvisioningFailed,
    PROVISIONING_FAILED_PERMANENTLY -> ProvisioningFailedPermanently,
    RENEWAL_FAILED -> RenewalFailed: it has seven keys, and a key is bound
    to a value iff the pair is one of those seven. *)
Theorem New_certificate_table_exact env path cfg :
  (New env path).1 = Some cfg ->
  Certificate (CertificateStatus cfg) = list_to_map certificate_table /\
  size (Certificate (CertificateStatus cfg)) = 7%nat /\
  forall k v,
    Certificate (CertificateStatus cfg) !! k = Some v <->
    (k = "ACTIVE" /\ v = "Active") \/
    (k = "" /\ v = "") \/
    (k = "MANAGED_CERTIFICATE_STATUS_UNSPECIFIED" /\ v = "") \/
    (k = "PROVISIONING" /\ v = "Provisioning") \/
    (k = "PROVISIONING_FAILED" /\ v = "ProvisioningFailed") \/
    (k = "PROVISIONING_FAILED_PERMANENTLY" /\ v = "ProvisioningFailedPermanently") \/
    (k = "RENEWAL_FAILED" /\ v = "RenewalFailed").
Proof.
  intros H. apply New_Some in H as [-> _].
  split; [apply certificateStatuses_eq|].
  split; [reflexivity|].
  intros k v. rewrite certificateStatuses_lookup. unfold certificate_table.
  rewrite !elem_of_cons, elem_of_nil, !pair_eq. tauto.
Qed.

Lemma New_certificate_table_exact_witness :
  Certificate (CertificateStatus examples.cfg_default) !! "RENEWAL_FAILED"
    = Some "RenewalFailed" /\
  Certificate (CertificateStatus examples.cfg_default) !! "FAILED_NOT_VISIBLE"
    = None /\
  size (Certificate (CertificateStatus examples.cfg_default)) = 7%nat.
Proof.
  destruct (New_certificate_table_exact examples.env_default ""
              examples.cfg_default) as (Heq & Hsize & Hlookup);
    [reflexivity|].
  split; [|split; [|exact Hsize]].
  - apply Hlookup. do 6 right. split; reflexivity.
  - destruct (_ !! "FAILED_NOT_VISIBLE") as [v|] eqn:Hv; [|reflexivity].
    apply Hlookup in Hv.
    repeat (destruct Hv as [[Hk _]|Hv]; [discriminate Hk|]).
    destruct Hv as [Hk _]; discriminate Hk.
Defined.

(** C5. When [config.New] succeeds, the domain-level table of the
    configuration it returns is exactly the six-entry map
    ACTIVE -> Active, FAILED_CAA_CHECKING -> FailedCaaChecking,
    FAILED_CAA_FORBIDDEN -> FailedCaaForbidden,
    FAILED_NOT_VISIBLE -> FailedNotVisible,
    FAILED_RATE_LIMITED -> FailedRateLimited, PROVISIONING -> Provisioning;
    it has no key for the provisioning-failed, permanently-failed or
    renewal-failed statuses. *)
Theorem New_domain_table_exact env path cfg :
  (New env path).1 = Some cfg ->
  Domain (CertificateStatus cfg) = list_to_map domain_table /\
  size (Domain (CertificateStatus cfg)) = 6%nat /\
  (forall k v,
    Domain (CertificateStatus cfg) !! k = Some v <->
    (k = "ACTIVE" /\ v = "Active") \/
    (k = "FAILED_CAA_CHECKING" /\ v = "FailedCaaChecking") \/
    (k = "FAILED_CAA_FORBIDDEN" /\ v = "FailedCaaForbidden") \/
    (k = "FAILED_NOT_VISIBLE" /\ v = "FailedNotVisible") \/
    (k = "FAILED_RATE_LIMITED" /\ v = "FailedRateLimited") \/
    (k = "PROVISIONING" /\ v = "Provisioning")) /\
  Domain (CertificateStatus cfg) !! "PROVISIONING_FAILED" = None /\
  Domain (CertificateStatus cfg) !! "PROVISIONING_FAILED_PERMANENTLY" = None /\
  Domain (CertificateStatus cfg) !! "RENEWAL_FAILED" = None.
Proof.
  intros H. apply New_Some in H as [_ ->].
  split; [apply domainStatuses_eq|].
  split; [reflexivity|].
  split; [|repeat split; reflexivity].
  intros k v. rewrite domainStatuses_lookup. unfold domain_table.
  rewrite !elem_of_cons, elem_of_nil, !pair_eq. tauto.
Qed.

Lemma New_domain_table_exact_witness :
  Domain (CertificateStatus examples.cfg_default) !! "FAILED_CAA_CHECKING"
    = Some "FailedCaaChecking" /\
  Domain (CertificateStatus examples.cfg_default) !! "RENEWAL_FAILED" = None /\
  size (Domain (CertificateStatus examples.cfg_default)) = 6%nat.
Proof.
  destruct (New_domain_table_exact examples.env_default ""
              examples.cfg_default) as (Heq & Hsize & Hlookup & _ & _ & Hnone);
    [reflexivity|].
  split; [|split; [exact Hnone|exact Hsize]].
  apply Hlookup. right. left. split; reflexivity.
Defined.

(** C10. When [config.New] succeeds, the two tables it returns agree on
    every key they share: a cloud status is a key of both tables iff it is
    ACTIVE or PROVISIONING, both tables send ACTIVE to Active and
    PROVISIONING to Provisioning, and hence whenever both tables bind a key
    they bind it to the same value. *)
Theorem New_tables_agree_on_shared_keys env path cfg :
  (New env path).1 = Some cfg ->
  let cert := Certificate (CertificateStatus cfg) in
  let dom_ := Domain (CertificateStatus cfg) in
  (forall k, is_Some (cert !! k) /\ is_Some (dom_ !! k) <->
             k = "ACTIVE" \/ k = "PROVISIONING") /\
  cert !! "ACTIVE" = Some "Active" /\ dom_ !! "ACTIVE" = Some "Active" /\
  cert !! "PROVISIONING" = Some "Provisioning" /\
  dom_ !! "PROVISIONING" = Some "Provisioning" /\
  (forall k v1 v2, cert !! k = Some v1 -> dom_ !! k = Some v2 -> v1 = v2).
Proof.
  intros H. apply New_Some in H as [-> ->]. simpl.
  assert (Hshared : forall k v1 v2,
             certificateStatuses !! k = Some v1 ->
             domainStatuses !! k = Some v2 ->
             (k = "ACTIVE" /\ v1 = "Active" /\ v2 = "Active") \/
             (k = "PROVISIONING" /\ v1 = "Provisioning" /\ v2 = "Provisioning")).
  { intros k v1 v2. rewrite certificateStatuses_lookup, domainStatuses_lookup.
    unfold certificate_table, domain_table.
    rewrite !elem_of_cons, !elem_of_nil, !pair_eq.
    intros Hc Hd.
    repeat (destruct Hc as [[-> ->]|Hc]); try contradiction;
      repeat (destruct Hd as [[Hk ->]|Hd]); try contradiction;
      try discriminate Hk; auto. }
  split; [|repeat split; try reflexivity].
  - intros k. split.
    + intros [[v1 H1] [v2 H2]].
      destruct (Hshared k v1 v2 H1 H2) as [(-> & _)|(-> & _)]; auto.
    + intros [->| ->]; split; eexists; reflexivity.
  - intros k v1 v2 H1 H2.
    destruct (Hshared k v1 v2 H1 H2) as [(_ & -> & ->)|(_ & -> & ->)]; reflexivity.
Qed.

Lemma New_tables_agree_on_shared_keys_witness :
  (forall k,
      is_Some (Certificate (CertificateStatus examples.cfg_default) !! k) /\
      is_Some (Domain (CertificateStatus examples.cfg_default) !! k) <->
      k = "ACTIVE" \/ k = "PROVISIONING") /\
  Certificate (CertificateStatus examples.cfg_default) !! "PROVISIONING"
  = Domain (CertificateStatus examples.cfg_default) !! "PROVISIONING".
Proof.
  destruct (New_tables_agree_on_shared_keys examples.env_default ""
              examples.cfg_default) as (Hkeys & _ & _ & Hc & Hd & _);
    [reflexivity|].
  split; [exact Hkeys|]. rewrite Hc, Hd. reflexivity.
Defined.

End StatusTables.


(** ** The SslCertificate client *)

Section SslClient.
Import compute ssl.
Context {S : Type}.
Variable IsNotFound : error -> bool.
Variable s : sslImpl S.

Lemma Get_run name st :
  Get s name st =
  ((compute.Get (service s) (projectID s) name st).1,
   (compute.Get (service s) (projectID s) name st).2,
   [Get_Do (projectID s) name]).
Proof.
  unfold Get, call. destruct (compute.Get _ _ _ _) as [r st']. reflexivity.
Qed.

(** C3. [Exists name] performs exactly one [Get name] and classifies its
    outcome: no error gives [(true, nil)]; a not-found error gives
    [(false, nil)]; any other error gives [(false, err)] with that very
    error. Hence an error returned by [Exists] is never a not-found one. *)
Theorem Exists_classifies_Get name st :
  events (Exists IsNotFound s name st) = [Get_Do (projectID s) name] /\
  state (Exists IsNotFound s name st) = state (Get s name st) /\
  ((result (Get s name st)).2 = None ->
   result (Exists IsNotFound s name st) = (true, None)) /\
  (forall err, (result (Get s name st)).2 = Some err -> IsNotFound err = true ->
   result (Exists IsNotFound s name st) = (false, None)) /\
  (forall err, (result (Get s name st)).2 = Some err -> IsNotFound err = false ->
   result (Exists IsNotFound s name st) = (false, Some err)) /\
  (forall err, (result (Exists IsNotFound s name st)).2 = Some err ->
   IsNotFound err = false).
Proof.
  unfold Exists, bind. rewrite Get_run.
  destruct (compute.Get _ _ _ _) as [[cert [e|]] st']; cbn.
  - destruct (IsNotFound e) eqn:Hnf; cbn;
      (split; [reflexivity|]); (split; [reflexivity|]);
      (split; [discriminate|]);
      (split; [intros ? [= <-]; congruence|]);
      (split; [intros ? [= <-]; congruence|]);
      [discriminate | intros ? [= <-]; assumption].
  - repeat split; try reflexivity; discriminate.
Qed.

(** C9. [Delete name] issues exactly one delete request for [name] in the
    configured project and returns what the provider answered as error,
    unchanged: every provider error comes back as it is, whether or not it
    is a not-found error. *)
Theorem Delete_returns_provider_error name st :
  events (Delete s name st) = [Delete_Do (projectID s) name] /\
  state (Delete s name st) = (compute.Delete (service s) (projectID s) name st).2 /\
  result (Delete s name st) = (compute.Delete (service s) (projectID s) name st).1.2 /\
  (forall err,
      (compute.Delete (service s) (projectID s) name st).1.2 = Some err ->
      result (Delete s name st) = Some err).
Proof.
  unfold Delete, bind, call, ret.
  destruct (compute.Delete _ _ _ _) as [[op err] st']; cbn.
  repeat split; try reflexivity. intros e ->. reflexivity.
Qed.

End SslClient.

Lemma Exists_classifies_Get_witness :
  result (ssl.Exists examples.IsNotFound examples.ssl_store "mcrt-site"
            {[ "mcrt-site" := examples.site_certificate ]}) = (true, None) /\
  result (ssl.Exists examples.IsNotFound examples.ssl_store "mcrt-site" ∅)
  = (false, None) /\
  result (ssl.Exists examples.IsNotFound examples.ssl_unavailable "mcrt-site" ∅)
  = (false, Some (googleapi_Error 503 "backendError")).
Proof.
  split; [|split].
  - apply (Exists_classifies_Get examples.IsNotFound examples.ssl_store
             "mcrt-site" {[ "mcrt-site" := examples.site_certificate ]}).
    reflexivity.
  - apply (Exists_classifies_Get examples.IsNotFound examples.ssl_store
             "mcrt-site" ∅) with (err := googleapi_Error 404 "notFound");
      reflexivity.
  - apply (Exists_classifies_Get examples.IsNotFound examples.ssl_unavailable
             "mcrt-site" ∅); reflexivity.
Defined.

Lemma Delete_returns_provider_error_witness :
  result (ssl.Delete examples.ssl_store "mcrt-site" ∅)
  = Some (googleapi_Error 404 "notFound") /\
  examples.IsNotFound (googleapi_Error 404 "notFound") = true /\
  result (ssl.Delete examples.ssl_unavailable "mcrt-site" ∅)
  = Some (googleapi_Error 503 "backendError").
Proof.
  split; [|split; [reflexivity|]].
  - apply (Delete_returns_provider_error examples.ssl_store "mcrt-site" ∅).
    reflexivity.
  - apply (Delete_returns_provider_error examples.ssl_unavailable "mcrt-site" ∅).
    reflexivity.
Defined.

(** ** The controller: full resync *)

Section Resync.
Import controller.
Context {S : Type}.
Variable MetaNamespaceKeyFunc : interface -> string * option error.
Variable c : controller S.

Lemma enqueue_events_ok obj st :
  events (enqueue MetaNamespaceKeyFunc c obj st)
  = enqueue_events MetaNamespaceKeyFunc obj.
Proof.
  unfold enqueue, enqueue_events.
  destruct (MetaNamespaceKeyFunc obj) as [key [err|]]; reflexivity.
Qed.

Lemma range_enqueue_events mcrts st :
  events (range mcrts (fun mcrt => enqueue MetaNamespaceKeyFunc c
                                     (of_ManagedCertificate mcrt)) st)
  = concat (map (fun mcrt => enqueue_events MetaNamespaceKeyFunc
                                (of_ManagedCertificate mcrt)) mcrts).
Proof.
  revert st. induction mcrts as [|mcrt mcrts IH]; intros st; [reflexivity|].
  cbn [range map concat]. unfold bind.
  pose proof (enqueue_events_ok (of_ManagedCertificate mcrt) st) as Hev.
  destruct (enqueue _ _ _ st) as [[[] st1] e1]. cbn in Hev. subst e1.
  specialize (IH st1).
  destruct (range mcrts _ st1) as [[[] st2] e2]. cbn in IH. subst e2.
  reflexivity.
Qed.

Lemma enqueue_events_no_metrics obj ev :
  ev ∈ enqueue_events MetaNamespaceKeyFunc obj -> is_metrics ev = false.
Proof.
  unfold enqueue_events.
  destruct (MetaNamespaceKeyFunc obj) as [key [err|]];
    rewrite ?elem_of_cons, elem_of_nil; intros H;
    repeat (destruct H as [->|H]; [reflexivity|]); contradiction.
Qed.

(** The histogram loop counts: starting from a map [h] whose counts are
    positive and leave room for [length mcrts] increments, a status is
    bound afterwards to its old count plus its number of occurrences. *)
Lemma wrap_int_small z : - 2 ^ 63 <= z < 2 ^ 63 -> wrap_int z = z.
Proof.
  intros H. unfold wrap_int.
  rewrite Z.mod_small by lia. lia.
Qed.

Lemma tally_counts mcrts : forall names (h : gmap string Z),
  Z.of_nat (length mcrts) < 2 ^ 63 ->
  (forall k v, h !! k = Some v -> 0 < v /\ v + Z.of_nat (length mcrts) < 2 ^ 63) ->
  forall status,
    (fold_left tally mcrts (names, h)).2 !! status =
    match count_status status mcrts with
    | O => h !! status
    | n => Some (default 0 (h !! status) + Z.of_nat n)
    end.
Proof.
  induction mcrts as [|mcrt mcrts IH]; intros names h Hlen Hh status; [reflexivity|].
  cbn [fold_left]. unfold tally at 2.
  set (s := CertificateStatus (Status mcrt)).
  cbn [length] in Hlen, Hh.
  assert (Hold : 0 <= default 0 (h !! s) /\
                 default 0 (h !! s) + Z.of_nat (Datatypes.S (length mcrts)) < 2 ^ 63).
  { destruct (h !! s) as [v|] eqn:Hv; cbn [default from_option id].
    - destruct (Hh s v Hv). lia.
    - lia. }
  rewrite wrap_int_small by lia.
  rewrite IH.
  - unfold count_status. cbn [List.filter]. fold s.
    destruct (String.eqb_spec s status) as [->|Hne].
    + cbn [length]. rewrite lookup_insert_eq. cbn [default from_option id].
      fold (count_status status mcrts).
      destruct (count_status status mcrts) as [|n]; f_equal; lia.
    + rewrite lookup_insert_ne by exact Hne. reflexivity.
  - lia.
  - intros k v. rewrite lookup_insert_Some.
    intros [[_ <-]|[_ Hv]]; [lia|].
    destruct (Hh k v Hv). lia.
Qed.

Lemma enqueues_before_last_metrics pre statuses :
  (forall ev, ev ∈ pre -> is_metrics ev = false) ->
  enqueues_before_metrics
    (pre ++ [metrics_ObserveManagedCertificatesStatuses statuses]).
Proof.
  intros Hpre i j ev1 ev2 Hi He Hj Hm.
  destruct (decide (j < length pre)%nat) as [Hlt|Hge].
  - rewrite lookup_app_l in Hj by exact Hlt.
    apply list_elem_of_lookup_2, Hpre in Hj. congruence.
  - destruct (decide (i < length pre)%nat) as [Hlt'|Hge']; [lia|].
    rewrite lookup_app_r in Hi by lia.
    destruct (i - length pre)%nat as [|n]; cbn in Hi; [|discriminate].
    injection Hi as <-. discriminate He.
Qed.

Lemma enqueueAll_run st :
  events (enqueueAll MetaNamespaceKeyFunc c st) =
  lister_List ::
  match (List_ (lister c) st).1 with
  | (_, Some err) => [runtime_HandleError err]
  | ([], None) => [glog_Info "No ManagedCertificates found in cluster"]
  | (mcrts, None) =>
      concat (map (fun mcrt => enqueue_events MetaNamespaceKeyFunc
                                 (of_ManagedCertificate mcrt)) mcrts)
      ++ [metrics_ObserveManagedCertificatesStatuses
            (fold_left tally mcrts ([], ∅)).2]
  end.
Proof.
  unfold enqueueAll, bind at 1, call.
  destruct (List_ (lister c) st) as [[mcrts [err|]] st1];
    [destruct mcrts; reflexivity|].
  destruct mcrts as [|mcrt mcrts]; [reflexivity|].
  assert (Hlen : (Z.of_nat (length (mcrt :: mcrts)) <=? 0) = false)
    by (apply Z.leb_gt; cbn [length]; lia).
  rewrite Hlen. cbn [fst].
  destruct (fold_left tally (mcrt :: mcrts) ([], ∅)) as [names statuses] eqn:Hfold.
  unfold bind.
  pose proof (range_enqueue_events (mcrt :: mcrts) st1) as Hev.
  destruct (range (mcrt :: mcrts) _ st1) as [[[] st2] e2]. cbn in Hev. subst e2.
  reflexivity.
Qed.

(** C1, as the code has it. On a non-empty listing, [enqueueAll] lists,
    computes the histogram of certificate statuses from the listing alone,
    calls [enqueue] on every listed resource in listing order, and only
    then reports the histogram: the metrics call is the last call of the
    invocation, so every enqueue comes before it. The reported map binds
    each status to the number of listed resources that carry it. *)
Theorem enqueueAll_enqueues_then_reports st mcrts st1 :
  List_ (lister c) st = ((mcrts, None), st1) ->
  mcrts <> [] ->
  let statuses := (fold_left tally mcrts ([], ∅)).2 in
  events (enqueueAll MetaNamespaceKeyFunc c st) =
    lister_List ::
    concat (map (fun mcrt => enqueue_events MetaNamespaceKeyFunc
                               (of_ManagedCertificate mcrt)) mcrts)
    ++ [metrics_ObserveManagedCertificatesStatuses statuses] /\
  enqueues_before_metrics (events (enqueueAll MetaNamespaceKeyFunc c st)) /\
  (Z.of_nat (length mcrts) < 2 ^ 63 ->
   forall status,
     statuses !! status =
     match count_status status mcrts with
     | O => None
     | n => Some (Z.of_nat n)
     end).
Proof.
  intros HList Hne statuses.
  assert (Hev : events (enqueueAll MetaNamespaceKeyFunc c st) =
    (lister_List ::
     concat (map (fun mcrt => enqueue_events MetaNamespaceKeyFunc
                                (of_ManagedCertificate mcrt)) mcrts))
    ++ [metrics_ObserveManagedCertificatesStatuses statuses]).
  { rewrite enqueueAll_run, HList. cbn [fst].
    destruct mcrts; [contradiction|reflexivity]. }
  split; [exact Hev|]. split.
  - rewrite Hev. apply enqueues_before_last_metrics.
    intros ev. rewrite elem_of_cons. intros [->|Hin]; [reflexivity|].
    apply list_elem_of_In, in_concat in Hin as (l & Hl & Hev').
    apply in_map_iff in Hl as (mcrt & <- & _).
    apply list_elem_of_In in Hev'.
    eapply enqueue_events_no_metrics, Hev'.
  - intros Hlen status. subst statuses.
    rewrite (tally_counts mcrts [] ∅ Hlen).
    + rewrite lookup_empty. cbn.
      destruct (count_status status mcrts); reflexivity.
    + intros k v. rewrite lookup_empty. discriminate.
Qed.

(** C8. When the lister fails, or returns an empty listing, [enqueueAll]
    makes exactly one more call: the error report in the first case, the
    log line in the second. It enqueues nothing and reports no metrics, and
    leaves the collaborators as the listing left them. *)
Theorem enqueueAll_nothing_listed st mcrts err st1 :
  List_ (lister c) st = ((mcrts, err), st1) ->
  is_Some err \/ mcrts = [] ->
  events (enqueueAll MetaNamespaceKeyFunc c st) =
    [lister_List;
     match err with
     | Some err => runtime_HandleError err
     | None => glog_Info "No ManagedCertificates found in cluster"
     end] /\
  state (enqueueAll MetaNamespaceKeyFunc c st) = st1 /\
  List.filter is_enqueue (events (enqueueAll MetaNamespaceKeyFunc c st)) = [] /\
  List.filter is_metrics (events (enqueueAll MetaNamespaceKeyFunc c st)) = [].
Proof.
  intros HList Hcase.
  assert (Hrun : enqueueAll MetaNamespaceKeyFunc c st =
    (tt, st1,
     [lister_List;
      match err with
      | Some err => runtime_HandleError err
      | None => glog_Info "No ManagedCertificates found in cluster"
      end])).
  { unfold enqueueAll, bind, call. rewrite HList.
    destruct err as [e|]; [reflexivity|].
    destruct Hcase as [[e He]| ->]; [discriminate|reflexivity]. }
  rewrite Hrun. destruct err; repeat split; reflexivity.
Qed.

End Resync.

(** ** The controller: processing loop *)

Section Worker.
Import controller.
Context {S : Type}.
Variable SplitMetaNamespaceKey : string -> string * string * option error.
Variable typeName : interface -> string.
Variable c : controller S.

Local Abbreviation processNext :=
  (processNextManagedCertificate SplitMetaNamespaceKey typeName c).

(** The five paths of one iteration. *)

Lemma processNext_shutdown st obj st1 :
  Get (queue c) st = ((obj, true), st1) ->
  processNext st = (tt, st1, [queue_Get]).
Proof.
  intros HGet. unfold processNextManagedCertificate, bind, call.
  rewrite HGet. reflexivity.
Qed.

Lemma processNext_not_string st obj st1 :
  Get (queue c) st = ((obj, false), st1) ->
  (forall key, obj <> of_string key) ->
  processNext st =
  (tt, Done (queue c) obj (Forget (queue c) obj st1),
   [queue_Get; queue_Forget obj;
    runtime_HandleError
      (errorString ("Expected string in queue but got " +:+ typeName obj));
    queue_Done obj]).
Proof.
  intros HGet Hobj. unfold processNextManagedCertificate, bind at 1, call.
  rewrite HGet.
  destruct obj as [key| |]; [destruct (Hobj key eq_refl)| |]; reflexivity.
Qed.

Lemma processNext_malformed st key st1 namespace name err :
  Get (queue c) st = ((of_string key, false), st1) ->
  SplitMetaNamespaceKey key = (namespace, name, Some err) ->
  processNext st =
  (tt, Done (queue c) (of_string key) (AddRateLimited (queue c) (of_string key) st1),
   [queue_Get; queue_AddRateLimited (of_string key); runtime_HandleError err;
    queue_Done (of_string key)]).
Proof.
  intros HGet HSplit. unfold processNextManagedCertificate, bind at 1, call.
  rewrite HGet. unfold defer, handle, bind, call_, ret. rewrite HSplit.
  reflexivity.
Qed.

Lemma processNext_sync_ok st key st1 namespace name st2 :
  Get (queue c) st = ((of_string key, false), st1) ->
  SplitMetaNamespaceKey key = (namespace, name, None) ->
  ManagedCertificate_ (sync c) (NewCertId namespace name) st1 = (None, st2) ->
  processNext st =
  (tt, Done (queue c) (of_string key) (Forget (queue c) (of_string key) st2),
   [queue_Get; sync_ManagedCertificate (NewCertId namespace name);
    queue_Forget (of_string key); queue_Done (of_string key)]).
Proof.
  intros HGet HSplit HSync. unfold processNextManagedCertificate, bind at 1, call.
  rewrite HGet. unfold defer, handle, bind, call, call_, ret.
  rewrite HSplit, HSync. reflexivity.
Qed.

Lemma processNext_sync_error st key st1 namespace name err st2 :
  Get (queue c) st = ((of_string key, false), st1) ->
  SplitMetaNamespaceKey key = (namespace, name, None) ->
  ManagedCertificate_ (sync c) (NewCertId namespace name) st1 = (Some err, st2) ->
  processNext st =
  (tt, Done (queue c) (of_string key) (AddRateLimited (queue c) (of_string key) st2),
   [queue_Get; sync_ManagedCertificate (NewCertId namespace name);
    queue_AddRateLimited (of_string key); runtime_HandleError err;
    queue_Done (of_string key)]).
Proof.
  intros HGet HSplit HSync. unfold processNextManagedCertificate, bind at 1, call.
  rewrite HGet. unfold defer, handle, bind, call, call_, ret.
  rewrite HSplit, HSync. reflexivity.
Qed.

(** C2, as the code has it. A string key that cannot be parsed is treated
    like any failed reconciliation: [handle] returns the parse error without
    calling the engine, and the loop adds the key to the queue again,
    rate-limited, and reports the error; it never calls [Forget] on it. The
    item that is dropped with [Forget] and not added again is the one that
    is not a string. *)
Theorem malformed_key_is_retried st obj st1 :
  Get (queue c) st = ((obj, false), st1) ->
  (forall key namespace name err,
      obj = of_string key ->
      SplitMetaNamespaceKey key = (namespace, name, Some err) ->
      events (processNext st) =
        [queue_Get; queue_AddRateLimited obj; runtime_HandleError err;
         queue_Done obj] /\
      List.filter is_Forget (events (processNext st)) = [] /\
      ~ dropped obj (events (processNext st))) /\
  ((forall key, obj <> of_string key) ->
      events (processNext st) =
        [queue_Get; queue_Forget obj;
         runtime_HandleError
           (errorString ("Expected string in queue but got " +:+ typeName obj));
         queue_Done obj] /\
      dropped obj (events (processNext st))).
Proof.
  intros HGet. split.
  - intros key namespace name err -> HSplit.
    rewrite (processNext_malformed _ _ _ _ _ _ HGet HSplit).
    split; [reflexivity|]. split; [reflexivity|].
    intros [_ Hno]. apply (Hno 1%nat). reflexivity.
  - intros Hobj. rewrite (processNext_not_string _ _ _ HGet Hobj).
    split; [reflexivity|]. split.
    + exists 1%nat. reflexivity.
    + intros [|[|[|[|i]]]]; discriminate.
Qed.

(** C6. One iteration calls [Get]. If the queue is shutting down it makes
    no other call. Otherwise, for a key that parses into (namespace, name),
    it calls the reconciliation engine on that identifier; when the engine
    returns no error it calls [Forget] on the key; when the engine returns
    an error it adds the key again, rate-limited, and hands the error to
    [runtime.HandleError]. In both cases the iteration then marks the key
    [Done] and returns normally: the error goes nowhere else. *)
Theorem processNext_iteration st :
  (forall obj st1,
      Get (queue c) st = ((obj, true), st1) ->
      events (processNext st) = [queue_Get] /\ state (processNext st) = st1) /\
  (forall key st1 namespace name st2,
      Get (queue c) st = ((of_string key, false), st1) ->
      SplitMetaNamespaceKey key = (namespace, name, None) ->
      ManagedCertificate_ (sync c) (NewCertId namespace name) st1 = (None, st2) ->
      events (processNext st) =
        [queue_Get; sync_ManagedCertificate (NewCertId namespace name);
         queue_Forget (of_string key); queue_Done (of_string key)] /\
      state (processNext st) =
        Done (queue c) (of_string key) (Forget (queue c) (of_string key) st2)) /\
  (forall key st1 namespace name err st2,
      Get (queue c) st = ((of_string key, false), st1) ->
      SplitMetaNamespaceKey key = (namespace, name, None) ->
      ManagedCertificate_ (sync c) (NewCertId namespace name) st1 = (Some err, st2) ->
      events (processNext st) =
        [queue_Get; sync_ManagedCertificate (NewCertId namespace name);
         queue_AddRateLimited (of_string key); runtime_HandleError err;
         queue_Done (of_string key)] /\
      state (processNext st) =
        Done (queue c) (of_string key)
          (AddRateLimited (queue c) (of_string key) st2) /\
      result (processNext st) = tt).
Proof.
  split; [|split].
  - intros obj st1 HGet. rewrite (processNext_shutdown _ _ _ HGet).
    split; reflexivity.
  - intros key st1 namespace name st2 HGet HSplit HSync.
    rewrite (processNext_sync_ok _ _ _ _ _ _ HGet HSplit HSync).
    split; reflexivity.
  - intros key st1 namespace name err st2 HGet HSplit HSync.
    rewrite (processNext_sync_error _ _ _ _ _ _ _ HGet HSplit HSync).
    repeat split; reflexivity.
Qed.

(** C7. Whatever [Get] returns and whatever path the iteration takes (item
    that is not a string, key that does not parse, engine error, success),
    an iteration whose [Get] did not signal shutdown calls [Done] exactly
    once, on the item [Get] returned, as its last call; an iteration whose
    [Get] signalled shutdown does not call [Done]. *)
Theorem processNext_Done_exactly_once st :
  let obj := (Get (queue c) st).1.1 in
  let shutdown := (Get (queue c) st).1.2 in
  List.filter is_Done (events (processNext st)) =
    (if shutdown then [] else [queue_Done obj]) /\
  (shutdown = false -> last (events (processNext st)) = Some (queue_Done obj)).
Proof.
  destruct (Get (queue c) st) as [[obj shutdown] st1] eqn:HGet. cbn [fst snd].
  destruct shutdown.
  { rewrite (processNext_shutdown _ _ _ HGet). split; [reflexivity|discriminate]. }
  destruct obj as [key|mcrt|t].
  - destruct (SplitMetaNamespaceKey key) as [[namespace name] [err|]] eqn:HSplit.
    + rewrite (processNext_malformed _ _ _ _ _ _ HGet HSplit).
      split; reflexivity.
    + destruct (ManagedCertificate_ (sync c) (NewCertId namespace name) st1)
        as [[err|] st2] eqn:HSync.
      * rewrite (processNext_sync_error _ _ _ _ _ _ _ HGet HSplit HSync).
        split; reflexivity.
      * rewrite (processNext_sync_ok _ _ _ _ _ _ HGet HSplit HSync).
        split; reflexivity.
  - rewrite (processNext_not_string _ _ _ HGet) by discriminate.
    split; reflexivity.
  - rewrite (processNext_not_string _ _ _ HGet) by discriminate.
    split; reflexivity.
Qed.

End Worker.

(** ** The controller on concrete clusters *)

Section OnClusters.
Import controller examples.

Local Abbreviation resync :=
  (enqueueAll cache.MetaNamespaceKeyFunc cluster_controller).
Local Abbreviation iteration :=
  (processNextManagedCertificate cache.SplitMetaNamespaceKey typeName
     cluster_controller).

(** C1, as stated, fails: with one certificate listed, the rate-limited add
    of its key is the third call and the metrics report the fourth. *)
Lemma enqueueAll_reports_after_enqueue :
  events (resync one_certificate) =
    [lister_List;
     glog_Infof "Enqueuing ManagedCertificate: %+v" (of_ManagedCertificate site);
     queue_AddRateLimited (of_string "default/site");
     metrics_ObserveManagedCertificatesStatuses {[ "Provisioning" := 1 ]}] /\
  ~ metrics_before_enqueues (events (resync one_certificate)).
Proof.
  split; [reflexivity|].
  intros H.
  specialize (H 3%nat 2%nat _ _ eq_refl eq_refl eq_refl eq_refl). lia.
Qed.

Lemma enqueueAll_enqueues_then_reports_witness :
  enqueues_before_metrics (events (resync two_certificates)) /\
  (fold_left tally [site; shop] ([], ∅)).2 !! "Active" = Some 1 /\
  (fold_left tally [site; shop] ([], ∅)).2 !! "RenewalFailed" = None.
Proof.
  destruct (enqueueAll_enqueues_then_reports cache.MetaNamespaceKeyFunc
              cluster_controller two_certificates [site; shop] two_certificates
              eq_refl ltac:(discriminate)) as (_ & Hord & Hcount).
  split; [exact Hord|].
  split; apply (Hcount eq_refl).
Defined.

Lemma enqueueAll_nothing_listed_witness :
  events (resync no_certificate) =
    [lister_List; glog_Info "No ManagedCertificates found in cluster"] /\
  events (resync lister_down) =
    [lister_List; runtime_HandleError (errorString "cache not synced")].
Proof.
  split.
  - apply (enqueueAll_nothing_listed cache.MetaNamespaceKeyFunc
             cluster_controller no_certificate [] None no_certificate eq_refl).
    right. reflexivity.
  - apply (enqueueAll_nothing_listed cache.MetaNamespaceKeyFunc
             cluster_controller lister_down []
             (Some (errorString "cache not synced")) lister_down eq_refl).
    left. eexists. reflexivity.
Defined.

(** C2, as stated, fails: the key a/b/c does not parse, and the iteration
    that takes it from the queue adds it again and never calls [Forget]. *)
Lemma malformed_key_not_dropped :
  (cache.SplitMetaNamespaceKey "a/b/c").2 =
    Some (errorString ("unexpected key format: "
                       +:+ cache.quote +:+ "a/b/c" +:+ cache.quote)) /\
  events (iteration malformed_key_queued) =
    [queue_Get;
     queue_AddRateLimited (of_string "a/b/c");
     runtime_HandleError
       (errorString ("unexpected key format: "
                     +:+ cache.quote +:+ "a/b/c" +:+ cache.quote));
     queue_Done (of_string "a/b/c")] /\
  ~ dropped (of_string "a/b/c") (events (iteration malformed_key_queued)).
Proof.
  split; [reflexivity|]. split; [reflexivity|].
  intros [_ Hno]. apply (Hno 1%nat). reflexivity.
Qed.

Lemma malformed_key_is_retried_witness :
  ~ dropped (of_string "a/b/c") (events (iteration malformed_key_queued)) /\
  dropped (of_other "int") (events (iteration number_queued)).
Proof.
  split.
  - eapply (malformed_key_is_retried cache.SplitMetaNamespaceKey typeName
              cluster_controller malformed_key_queued (of_string "a/b/c"));
      reflexivity.
  - eapply (malformed_key_is_retried cache.SplitMetaNamespaceKey typeName
              cluster_controller number_queued (of_other "int"));
      [reflexivity|discriminate].
Defined.

Lemma processNext_iteration_witness :
  events (iteration shutting_down) = [queue_Get] /\
  events (iteration (site_queued always_succeeds)) =
    [queue_Get; sync_ManagedCertificate (NewCertId "default" "site");
     queue_Forget (of_string "default/site");
     queue_Done (of_string "default/site")] /\
  events (iteration (site_queued always_fails)) =
    [queue_Get; sync_ManagedCertificate (NewCertId "default" "site");
     queue_AddRateLimited (of_string "default/site");
     runtime_HandleError (googleapi_Error 503 "backendError");
     queue_Done (of_string "default/site")].
Proof.
  split; [|split].
  - eapply (processNext_iteration cache.SplitMetaNamespaceKey typeName
              cluster_controller shutting_down).
    reflexivity.
  - eapply (processNext_iteration cache.SplitMetaNamespaceKey typeName
              cluster_controller (site_queued always_succeeds));
      reflexivity.
  - eapply (processNext_iteration cache.SplitMetaNamespaceKey typeName
              cluster_controller (site_queued always_fails));
      reflexivity.
Defined.

Lemma processNext_Done_exactly_once_witness :
  List.filter is_Done (events (iteration malformed_key_queued)) =
    [queue_Done (of_string "a/b/c")] /\
  last (events (iteration number_queued)) = Some (queue_Done (of_other "int")) /\
  List.filter is_Done (events (iteration shutting_down)) = [].
Proof.
  split; [|split].
  - apply (processNext_Done_exactly_once cache.SplitMetaNamespaceKey typeName
             cluster_controller malformed_key_queued).
  - apply (processNext_Done_exactly_once cache.SplitMetaNamespaceKey typeName
             cluster_controller number_queued).
    reflexivity.
  - apply (processNext_Done_exactly_once cache.SplitMetaNamespaceKey typeName
             cluster_controller shutting_down).
Defined.

End OnClusters.

(** * Further properties *)

(** ** Building the configuration *)

Section Configuration.
Import config.

Lemma getTokenSourceAndProjectID_gke env path :
  path <> "" ->
  getTokenSourceAndProjectID env path =
  match os_Open env path with
  | Some err =>
      (None, "",
       Some (errorString ("Could not open cloud provider configuration "
                          +:+ path +:+ ": " +:+ Error err)))
  | None =>
      match (gcfg_ReadInto env path).2 with
      | Some err => (None, "", Some (errorString ("Could not read config " +:+ Error err)))
      | None =>
          (Some (NewAltTokenSource (TokenURL (gcfg_ReadInto env path).1)
                                   (TokenBody (gcfg_ReadInto env path).1)),
           Global_ProjectID (gcfg_ReadInto env path).1, None)
      end
  end.
Proof.
  intros Hpath. unfold getTokenSourceAndProjectID.
  destruct (String.eqb_spec path "") as [->|_]; [contradiction|]. cbn [negb].
  destruct (os_Open env path); [reflexivity|].
  destruct (gcfg_ReadInto env path) as [cfg [err|]]; reflexivity.
Qed.

Lemma getTokenSourceAndProjectID_default env :
  getTokenSourceAndProjectID env "" =
  match (metadata_ProjectID env).2 with
  | Some err =>
      (None, "", Some (errorString ("Could not fetch project id: " +:+ Error err)))
  | None =>
      if (0 <? Z.of_nat (String.length (os_Getenv env "GOOGLE_APPLICATION_CREDENTIALS")))
      then ((google_DefaultTokenSource env ComputeScope).1,
            (metadata_ProjectID env).1,
            (google_DefaultTokenSource env ComputeScope).2)
      else (Some (ComputeTokenSource ""), (metadata_ProjectID env).1, None)
  end.
Proof.
  unfold getTokenSourceAndProjectID. cbn [String.eqb negb].
  destruct (metadata_ProjectID env) as [projectID [err|]]; [reflexivity|].
  cbn [fst snd]. destruct (0 <? _); [|reflexivity].
  destruct (google_DefaultTokenSource env ComputeScope) as [ts err]. reflexivity.
Qed.

Lemma New_run env path :
  New env path =
  match (getTokenSourceAndProjectID env path).2 with
  | Some err => (None, Some err)
  | None =>
      (Some {| CertificateStatus :=
                 {| Certificate := certificateStatuses; Domain := domainStatuses |};
               Compute :=
                 {| TokenSource_ := (getTokenSourceAndProjectID env path).1.1;
                    ProjectID := (getTokenSourceAndProjectID env path).1.2;
                    Timeout := 30 * Second |};
               SslCertificateNamePrefix_ := SslCertificateNamePrefix |}, None)
  end.
Proof.
  unfold New.
  destruct (getTokenSourceAndProjectID env path) as [[ts projectID] [err|]];
    reflexivity.
Qed.

(** X1. [New] returns either a configuration and no error, or no
    configuration and an error, never both and never neither; the error is
    the one of [getTokenSourceAndProjectID], unchanged. *)
Theorem New_config_xor_error env path :
  (New env path).2 = (getTokenSourceAndProjectID env path).2 /\
  ((New env path).2 = None <-> is_Some (New env path).1) /\
  (is_Some (New env path).2 <-> (New env path).1 = None).
Proof.
  rewrite New_run.
  destruct (getTokenSourceAndProjectID env path).2 as [err|]; cbn;
    (split; [reflexivity|]); split; split; intros H;
    try reflexivity; try discriminate H;
    try (destruct H; discriminate);
    eexists; reflexivity.
Qed.

Lemma New_Some_Compute env path cfg :
  (New env path).1 = Some cfg ->
  Compute cfg =
  {| TokenSource_ := (getTokenSourceAndProjectID env path).1.1;
     ProjectID := (getTokenSourceAndProjectID env path).1.2;
     Timeout := 30000000000 |}.
Proof.
  rewrite New_run.
  destruct (getTokenSourceAndProjectID env path).2 as [err|]; cbn;
    intros [= <-]. reflexivity.
Qed.

(** X2. Whatever the surroundings, a configuration returned by [New]
    carries a timeout of 30 seconds (3 * 10^10 nanoseconds) and the name
    prefix mcrt-, and its project id and token source are the ones that
    [getTokenSourceAndProjectID] found. *)
Theorem New_fixed_settings env path cfg :
  (New env path).1 = Some cfg ->
  Timeout (Compute cfg) = 30000000000 /\
  SslCertificateNamePrefix_ cfg = "mcrt-" /\
  ProjectID (Compute cfg) = (getTokenSourceAndProjectID env path).1.2 /\
  TokenSource_ (Compute cfg) = (getTokenSourceAndProjectID env path).1.1.
Proof.
  rewrite New_run.
  destruct (getTokenSourceAndProjectID env path).2 as [err|]; cbn;
    intros [= <-]. repeat split; reflexivity.
Qed.

(** X3. [New] succeeds exactly in two situations: a configuration path is
    given and the file opens and parses; or no path is given, the metadata
    server answers the project id, and either
    GOOGLE_APPLICATION_CREDENTIALS is empty or the default credentials are
    found. *)
Theorem New_succeeds_iff env path :
  is_Some (New env path).1 <->
  (path <> "" /\ os_Open env path = None /\ (gcfg_ReadInto env path).2 = None) \/
  (path = "" /\ (metadata_ProjectID env).2 = None /\
   (os_Getenv env "GOOGLE_APPLICATION_CREDENTIALS" = "" \/
    (google_DefaultTokenSource env ComputeScope).2 = None)).
Proof.
  rewrite New_run.
  destruct (String.eqb_spec path "") as [->|Hpath].
  - rewrite getTokenSourceAndProjectID_default.
    destruct (metadata_ProjectID env).2 as [err|]; cbn.
    + split; [intros [cfg H]; discriminate|].
      intros [(H & _)|(_ & H & _)]; [contradiction|discriminate].
    + destruct (os_Getenv env "GOOGLE_APPLICATION_CREDENTIALS") as [|a cs] eqn:Henv;
        cbn.
      * split; [|intros _; eexists; reflexivity].
        intros _. right. auto.
      * destruct (google_DefaultTokenSource env ComputeScope).2 as [err|]; cbn.
        -- split; [intros [cfg H]; discriminate|].
           intros [(H & _)|(_ & _ & [H|H])]; [contradiction|discriminate..].
        -- split; [|intros _; eexists; reflexivity].
           intros _. right. auto.
  - rewrite getTokenSourceAndProjectID_gke by exact Hpath.
    destruct (os_Open env path) as [err|]; cbn.
    + split; [intros [cfg H]; discriminate|].
      intros [(_ & H & _)|(H & _)]; [discriminate|contradiction].
    + destruct (gcfg_ReadInto env path).2 as [err|]; cbn.
      * split; [intros [cfg H]; discriminate|].
        intros [(_ & _ & H)|(H & _)]; [discriminate|contradiction].
      * split; [|intros _; eexists; reflexivity].
        intros _. left. auto.
Qed.

(** X4. [New] looks only at what its mode needs. With a configuration
    path, the outcome is decided by opening and parsing that file: the
    metadata server, the environment and the default credentials play no
    part. Without a path, the file system plays no part. *)
Theorem New_reads_only_what_its_mode_needs env env' path :
  (path <> "" ->
   os_Open env path = os_Open env' path ->
   gcfg_ReadInto env path = gcfg_ReadInto env' path ->
   New env path = New env' path) /\
  (path = "" ->
   metadata_ProjectID env = metadata_ProjectID env' ->
   os_Getenv env "GOOGLE_APPLICATION_CREDENTIALS"
   = os_Getenv env' "GOOGLE_APPLICATION_CREDENTIALS" ->
   google_DefaultTokenSource env ComputeScope
   = google_DefaultTokenSource env' ComputeScope ->
   New env path = New env' path).
Proof.
  split.
  - intros Hpath Hopen Hread.
    rewrite !New_run, !getTokenSourceAndProjectID_gke by exact Hpath.
    rewrite Hopen, Hread. reflexivity.
  - intros -> Hmeta Henv Hdefault.
    rewrite !New_run, !getTokenSourceAndProjectID_default.
    rewrite Hmeta, Henv, Hdefault. reflexivity.
Qed.

(** X5. Every error of [New] names the step that failed: opening the
    file, reading it, or fetching the project id, each as a new error whose
    message is a fixed prefix followed by the message of the cause. The one
    exception is the default credentials lookup, whose error is returned as
    it is. *)
Theorem New_error_causes env path err :
  (New env path).2 = Some err ->
  (exists cause,
      path <> "" /\ os_Open env path = Some cause /\
      err = errorString ("Could not open cloud provider configuration "
                         +:+ path +:+ ": " +:+ Error cause)) \/
  (exists cause,
      path <> "" /\ os_Open env path = None /\
      (gcfg_ReadInto env path).2 = Some cause /\
      err = errorString ("Could not read config " +:+ Error cause)) \/
  (exists cause,
      path = "" /\ (metadata_ProjectID env).2 = Some cause /\
      err = errorString ("Could not fetch project id: " +:+ Error cause)) \/
  (path = "" /\ (metadata_ProjectID env).2 = None /\
   os_Getenv env "GOOGLE_APPLICATION_CREDENTIALS" <> "" /\
   (google_DefaultTokenSource env ComputeScope).2 = Some err).
Proof.
  rewrite New_run.
  destruct (String.eqb_spec path "") as [->|Hpath].
  - rewrite getTokenSourceAndProjectID_default.
    destruct (metadata_ProjectID env).2 as [cause|] eqn:Hmeta; cbn.
    + intros [= <-]. right. right. left. exists cause. auto.
    + destruct (os_Getenv env "GOOGLE_APPLICATION_CREDENTIALS") as [|a cs] eqn:Henv;
        cbn; [discriminate|].
      destruct (google_DefaultTokenSource env ComputeScope).2 as [cause|] eqn:Hd;
        cbn; [|discriminate].
      intros [= <-]. do 3 right. repeat split; auto; try discriminate.
  - rewrite getTokenSourceAndProjectID_gke by exact Hpath.
    destruct (os_Open env path) as [cause|] eqn:Hopen; cbn.
    + intros [= <-]. left. exists cause. auto.
    + destruct (gcfg_ReadInto env path).2 as [cause|] eqn:Hread; cbn;
        [|discriminate].
      intros [= <-]. right. left. exists cause. auto.
Qed.

(** X6. The domain-level table can be read backwards: two cloud statuses
    with the same translation are the same status. The certificate-level
    table cannot: the empty status and
    MANAGED_CERTIFICATE_STATUS_UNSPECIFIED both translate to the empty
    status, and that is the only collision. *)
Theorem New_tables_injectivity env path cfg :
  (New env path).1 = Some cfg ->
  (forall k1 k2 v,
      Domain (CertificateStatus cfg) !! k1 = Some v ->
      Domain (CertificateStatus cfg) !! k2 = Some v -> k1 = k2) /\
  (forall k1 k2 v,
      Certificate (CertificateStatus cfg) !! k1 = Some v ->
      Certificate (CertificateStatus cfg) !! k2 = Some v ->
      k1 = k2 \/
      (v = "" /\
       (k1 = "" \/ k1 = "MANAGED_CERTIFICATE_STATUS_UNSPECIFIED") /\
       (k2 = "" \/ k2 = "MANAGED_CERTIFICATE_STATUS_UNSPECIFIED"))) /\
  Certificate (CertificateStatus cfg) !! ""
  = Certificate (CertificateStatus cfg) !! "MANAGED_CERTIFICATE_STATUS_UNSPECIFIED".
Proof.
  intros H. apply New_Some in H as [-> ->].
  split; [|split; [|reflexivity]].
  - intros k1 k2 v. rewrite !domainStatuses_lookup. unfold domain_table.
    rewrite !elem_of_cons, !elem_of_nil, !pair_eq.
    intros H1 H2.
    repeat (destruct H1 as [[-> ->]|H1]); try contradiction;
      repeat (destruct H2 as [[-> Hv]|H2]); try contradiction;
      try discriminate Hv; reflexivity.
  - intros k1 k2 v. rewrite !certificateStatuses_lookup. unfold certificate_table.
    rewrite !elem_of_cons, !elem_of_nil, !pair_eq.
    intros H1 H2.
    repeat (destruct H1 as [[-> ->]|H1]); try contradiction;
      repeat (destruct H2 as [[-> Hv]|H2]); try contradiction;
      try discriminate Hv; auto 6.
Qed.

End Configuration.

Lemma New_fixed_settings_witness :
  config.Timeout (config.Compute examples.cfg_default) = 30000000000 /\
  config.ProjectID (config.Compute examples.cfg_default) = "my-project".
Proof.
  destruct (New_fixed_settings examples.env_default "" examples.cfg_default eq_refl)
    as (Htimeout & _ & Hproject & _).
  split; [exact Htimeout|exact Hproject].
Defined.

Lemma New_reads_only_what_its_mode_needs_witness :
  config.New surroundings.env_gke "/etc/gce.conf"
  = config.New surroundings.env_gke_with_metadata "/etc/gce.conf" /\
  config.New examples.env_default ""
  = config.New surroundings.env_default_on_gke "".
Proof.
  split.
  - destruct (New_reads_only_what_its_mode_needs surroundings.env_gke
                surroundings.env_gke_with_metadata "/etc/gce.conf") as [Hgke _].
    apply Hgke; [discriminate|reflexivity|reflexivity].
  - destruct (New_reads_only_what_its_mode_needs examples.env_default
                surroundings.env_default_on_gke "") as [_ Hdefault].
    apply Hdefault; reflexivity.
Defined.

Lemma New_error_causes_witness :
  (exists cause,
      config.os_Open surroundings.env_gke "/etc/missing.conf" = Some cause) /\
  (config.google_DefaultTokenSource surroundings.env_bad_credentials
     config.ComputeScope).2
  = Some (errorString "could not find default credentials").
Proof.
  split.
  - destruct (New_error_causes surroundings.env_gke "/etc/missing.conf"
                (errorString ("Could not open cloud provider configuration "
                              +:+ "/etc/missing.conf" +:+ ": "
                              +:+ "open /etc/missing.conf: no such file or directory"))
                eq_refl)
      as [(cause & _ & H & _)|[(cause & _ & H & _)|[(cause & H & _)|(H & _)]]];
      try discriminate H.
    exists cause. exact H.
  - destruct (New_error_causes surroundings.env_bad_credentials ""
                (errorString "could not find default credentials") eq_refl)
      as [(cause & H & _)|[(cause & H & _)|[(cause & _ & H & _)|(_ & _ & _ & H)]]];
      try contradiction; try discriminate H.
    exact H.
Defined.

Lemma New_tables_injectivity_witness :
  config.Certificate (config.CertificateStatus examples.cfg_default) !! ""
  = config.Certificate (config.CertificateStatus examples.cfg_default)
      !! "MANAGED_CERTIFICATE_STATUS_UNSPECIFIED".
Proof.
  destruct (New_tables_injectivity examples.env_default "" examples.cfg_default
              eq_refl) as (_ & _ & Hcollision).
  exact Hcollision.
Defined.

(** ** More on the SslCertificate client *)

Section SslClientMore.
Import compute ssl.
Context {S : Type}.
Variable IsNotFound : error -> bool.
Variable s : sslImpl S.

(** X7. [Create name domains] issues exactly one insert request, in the
    configured project, for a certificate of type MANAGED that carries
    [name] as it was given (no prefix is added or checked) and [domains] in
    the given order; it returns the provider's error unchanged. *)
Theorem Create_request name domains st :
  exists cert,
    events (Create s name domains st) = [Insert_Do (projectID s) cert] /\
    Name cert = name /\ Type_ cert = "MANAGED" /\
    Domains <$> Managed cert = Some domains /\
    result (Create s name domains st)
    = (compute.Insert (service s) (projectID s) cert st).1.2 /\
    state (Create s name domains st)
    = (compute.Insert (service s) (projectID s) cert st).2.
Proof.
  eexists. unfold Create, bind, call, ret.
  destruct (compute.Insert _ _ _ _) as [[op err] st'] eqn:HInsert; cbn.
  split; [reflexivity|]. rewrite HInsert. repeat split; reflexivity.
Qed.

(** X8. Every operation of the client sends exactly one request, and sends
    it to the project the client was configured with. *)
Theorem client_requests_one_project name domains st :
  (exists r, events (Create s name domains st) = [r]
             /\ request_project r = projectID s) /\
  (exists r, events (Delete s name st) = [r] /\ request_project r = projectID s) /\
  (exists r, events (Get s name st) = [r] /\ request_project r = projectID s) /\
  (exists r, events (Exists IsNotFound s name st) = [r]
             /\ request_project r = projectID s).
Proof.
  repeat split.
  - eexists. unfold Create, bind, call, ret.
    destruct (compute.Insert _ _ _ _) as [[op err] st']. split; reflexivity.
  - eexists. unfold Delete, bind, call, ret.
    destruct (compute.Delete _ _ _ _) as [[op err] st']. split; reflexivity.
  - eexists. rewrite Get_run. split; reflexivity.
  - eexists. unfold Exists, bind. rewrite Get_run.
    destruct (compute.Get _ _ _ _) as [[cert [e|]] st']; cbn;
      [destruct (IsNotFound e)|]; split; reflexivity.
Qed.

(** X9. [Exists] answers true exactly when its [Get] returned no error, and
    never returns an error together with true. *)
Theorem Exists_true_iff_Get_succeeds name st :
  ((result (Exists IsNotFound s name st)).1 = true <->
   (result (Get s name st)).2 = None) /\
  ((result (Exists IsNotFound s name st)).1 = true ->
   (result (Exists IsNotFound s name st)).2 = None).
Proof.
  unfold Exists, bind. rewrite Get_run.
  destruct (compute.Get _ _ _ _) as [[cert [e|]] st']; cbn.
  - destruct (IsNotFound e); cbn; split; try split; discriminate.
  - repeat split; reflexivity.
Qed.

End SslClientMore.

Section SslNew.
Import compute.
Context {S : Type}.

(** X10. A client built by [ssl.New] from a configuration of [config.New]
    talks over a connection whose timeout is 30 seconds and whose token
    source is the configuration's: [compute.New] is asked for nothing else.
    When [compute.New] fails, its error is returned unchanged and no client;
    when it succeeds, the client works in the configuration's project. *)
Theorem ssl_New_from_config env path cfg
  (compute_New compute_New' : Client -> SslCertificatesService S + error) :
  (config.New env path).1 = Some cfg ->
  ((forall client,
       Client_Timeout client = 30000000000 ->
       Source client = config.TokenSource_ (config.Compute cfg) ->
       compute_New client = compute_New' client) ->
   ssl.New compute_New cfg = ssl.New compute_New' cfg) /\
  (forall impl, (ssl.New compute_New cfg).1 = Some impl ->
                (ssl.New compute_New cfg).2 = None /\
                ssl.projectID impl = (config.getTokenSourceAndProjectID env path).1.2) /\
  ((ssl.New compute_New cfg).1 = None ->
   exists err client, (ssl.New compute_New cfg).2 = Some err /\
                      compute_New client = inr err).
Proof.
  intros Hcfg. pose proof (New_Some_Compute env path cfg Hcfg) as HCompute.
  unfold ssl.New. split; [|split].
  - intros Hsame. rewrite Hsame; [reflexivity| |reflexivity].
    cbn. rewrite HCompute. reflexivity.
  - intros impl.
    destruct (compute_New _) as [service|err]; cbn; [|discriminate].
    intros [= <-]. split; [reflexivity|]. cbn. rewrite HCompute. reflexivity.
  - destruct (compute_New _) as [service|err] eqn:Hnew; cbn; [discriminate|].
    intros _. eexists _, _. split; [reflexivity|exact Hnew].
Qed.

End SslNew.

Lemma ssl_New_from_config_witness :
  (ssl.New (fun _ => inl examples.store_service) examples.cfg_default).2 = None /\
  (ssl.New (S := examples.store) (fun _ => inr (errorString "no transport"))
     examples.cfg_default).2
  = Some (errorString "no transport").
Proof.
  split.
  - destruct (ssl_New_from_config examples.env_default "" examples.cfg_default
                (fun _ => inl examples.store_service)
                (fun _ => inl examples.store_service) eq_refl)
      as (_ & Hok & _).
    apply (Hok {| ssl.service := examples.store_service;
                  ssl.projectID := "my-project" |}).
    reflexivity.
  - destruct (ssl_New_from_config (S := examples.store) examples.env_default ""
                examples.cfg_default
                (fun _ => inr (errorString "no transport"))
                (fun _ => inr (errorString "no transport")) eq_refl)
      as (_ & _ & Hfail).
    destruct (Hfail eq_refl) as (err & client & Herr & Hnew).
    injection Hnew as <-. exact Herr.
Defined.

Lemma Exists_true_iff_Get_succeeds_witness :
  (result (ssl.Exists examples.IsNotFound examples.ssl_store "mcrt-site"
             {[ "mcrt-site" := examples.site_certificate ]})).2 = None.
Proof.
  apply (Exists_true_iff_Get_succeeds examples.IsNotFound examples.ssl_store
           "mcrt-site" {[ "mcrt-site" := examples.site_certificate ]}).
  reflexivity.
Defined.

(** ** More on the full resync *)

Section ResyncMore.
Import controller.
Context {S : Type}.
Variable MetaNamespaceKeyFunc : interface -> string * option error.
Variable c : controller S.

Lemma enqueue_run obj st :
  enqueue MetaNamespaceKeyFunc c obj st =
  (tt, enqueue_state MetaNamespaceKeyFunc c obj st,
   enqueue_events MetaNamespaceKeyFunc obj).
Proof.
  unfold enqueue, enqueue_state, enqueue_events.
  destruct (MetaNamespaceKeyFunc obj) as [key [err|]]; reflexivity.
Qed.

Lemma filter_concat_map {A B} (p : B -> bool) (f : A -> list B) (l : list A) :
  List.filter p (concat (map f l)) = concat (map (fun a => List.filter p (f a)) l).
Proof.
  induction l as [|a l IH]; [reflexivity|].
  cbn [map concat]. rewrite List.filter_app, IH. reflexivity.
Qed.

Lemma filter_enqueue_events obj :
  List.filter is_enqueue (enqueue_events MetaNamespaceKeyFunc obj)
  = enqueue_adds MetaNamespaceKeyFunc obj.
Proof.
  unfold enqueue_events, enqueue_adds.
  destruct (MetaNamespaceKeyFunc obj) as [key [err|]]; reflexivity.
Qed.

Lemma enqueue_events_quiet (p : event -> bool) obj :
  (forall err, p (runtime_HandleError err) = false) ->
  (forall format arg, p (glog_Infof format arg) = false) ->
  (forall item, p (queue_AddRateLimited item) = false) ->
  List.filter p (enqueue_events MetaNamespaceKeyFunc obj) = [].
Proof.
  intros H1 H2 H3. unfold enqueue_events.
  destruct (MetaNamespaceKeyFunc obj) as [key [err|]]; cbn;
    rewrite ?H1, ?H2, ?H3; reflexivity.
Qed.

Lemma concat_map_nil {A B} (f : A -> list B) (l : list A) :
  (forall a, f a = []) -> concat (map f l) = [].
Proof.
  intros Hf. induction l as [|a l IH]; [reflexivity|].
  cbn [map concat]. rewrite Hf, IH. reflexivity.
Qed.

(** X11. [enqueue] on an object from which no key can be derived reports
    the error and leaves the queue as it was; otherwise it logs and adds
    exactly the derived key, as a string, rate-limited. It makes no other
    call. *)
Theorem enqueue_outcome obj st :
  (forall key err,
      MetaNamespaceKeyFunc obj = (key, Some err) ->
      events (enqueue MetaNamespaceKeyFunc c obj st) = [runtime_HandleError err] /\
      state (enqueue MetaNamespaceKeyFunc c obj st) = st) /\
  (forall key,
      MetaNamespaceKeyFunc obj = (key, None) ->
      events (enqueue MetaNamespaceKeyFunc c obj st) =
        [glog_Infof "Enqueuing ManagedCertificate: %+v" obj;
         queue_AddRateLimited (of_string key)] /\
      state (enqueue MetaNamespaceKeyFunc c obj st) =
        AddRateLimited (queue c) (of_string key) st).
Proof.
  rewrite enqueue_run. unfold enqueue_state, enqueue_events.
  split; [intros key err ->|intros key ->]; split; reflexivity.
Qed.

(** X12. The keys [enqueueAll] adds to the queue are those of the listed
    resources from which a key can be derived, one add per resource, in
    listing order; when every listed resource has a key, there are as many
    adds as listed resources. A resync never calls the reconciliation
    engine itself, and never calls [Get], [Forget] or [Done]. *)
Theorem enqueueAll_adds_listed_keys st mcrts st1 :
  List_ (lister c) st = ((mcrts, None), st1) ->
  List.filter is_enqueue (events (enqueueAll MetaNamespaceKeyFunc c st)) =
    concat (map (fun mcrt => enqueue_adds MetaNamespaceKeyFunc
                               (of_ManagedCertificate mcrt)) mcrts) /\
  ((forall mcrt, mcrt ∈ mcrts ->
                 (MetaNamespaceKeyFunc (of_ManagedCertificate mcrt)).2 = None) ->
   List.filter is_enqueue (events (enqueueAll MetaNamespaceKeyFunc c st)) =
     map (fun mcrt =>
            queue_AddRateLimited
              (of_string (MetaNamespaceKeyFunc (of_ManagedCertificate mcrt)).1))
         mcrts) /\
  List.filter is_sync (events (enqueueAll MetaNamespaceKeyFunc c st)) = [] /\
  List.filter is_Forget (events (enqueueAll MetaNamespaceKeyFunc c st)) = [] /\
  List.filter is_Done (events (enqueueAll MetaNamespaceKeyFunc c st)) = [] /\
  queue_Get ∉ events (enqueueAll MetaNamespaceKeyFunc c st).
Proof.
  intros HList.
  assert (Hadds :
    List.filter is_enqueue (events (enqueueAll MetaNamespaceKeyFunc c st)) =
    concat (map (fun mcrt => enqueue_adds MetaNamespaceKeyFunc
                               (of_ManagedCertificate mcrt)) mcrts)).
  { rewrite enqueueAll_run, HList. cbn [fst].
    destruct mcrts as [|mcrt mcrts]; [reflexivity|].
    cbn [List.filter is_enqueue]. rewrite List.filter_app, filter_concat_map.
    cbn [List.filter is_enqueue]. rewrite app_nil_r.
    f_equal. apply map_ext. intros m. apply filter_enqueue_events. }
  assert (Hquiet : forall p : event -> bool,
    p lister_List = false ->
    (forall msg, p (glog_Info msg) = false) ->
    (forall statuses, p (metrics_ObserveManagedCertificatesStatuses statuses) = false) ->
    (forall err, p (runtime_HandleError err) = false) ->
    (forall format arg, p (glog_Infof format arg) = false) ->
    (forall item, p (queue_AddRateLimited item) = false) ->
    List.filter p (events (enqueueAll MetaNamespaceKeyFunc c st)) = []).
  { intros p H0 H1 H2 H3 H4 H5. rewrite enqueueAll_run, HList. cbn [fst].
    destruct mcrts as [|mcrt mcrts]; [cbn; rewrite H0, H1; reflexivity|].
    cbn [List.filter]. rewrite H0, List.filter_app, filter_concat_map.
    cbn [List.filter]. rewrite H2, app_nil_r.
    apply concat_map_nil. intros m. apply enqueue_events_quiet; assumption. }
  split; [exact Hadds|]. split; [|repeat split; try (apply Hquiet; reflexivity)].
  - intros Hkeys. rewrite Hadds. clear Hadds Hquiet HList.
    induction mcrts as [|mcrt mcrts IH]; [reflexivity|].
    cbn [map concat]. rewrite IH.
    + pose proof (Hkeys mcrt (list_elem_of_here _ _)) as Hkey.
      unfold enqueue_adds.
      destruct (MetaNamespaceKeyFunc (of_ManagedCertificate mcrt)) as [key err].
      cbn in Hkey. subst err. reflexivity.
    + intros m Hm. apply Hkeys. apply list_elem_of_further, Hm.
  - intros Hin. apply list_elem_of_In in Hin.
    assert (Hf : In queue_Get
                   (List.filter (fun ev => match ev with queue_Get => true | _ => false end)
                      (events (enqueueAll MetaNamespaceKeyFunc c st)))).
    { apply List.filter_In. split; [exact Hin|reflexivity]. }
    rewrite Hquiet in Hf by reflexivity. destruct Hf.
Qed.

Lemma total_increment (h : gmap string Z) k :
  total (<[k := default 0 (h !! k) + 1]> h) = total h + 1.
Proof.
  unfold total.
  destruct (h !! k) as [v|] eqn:Hk; cbn [default from_option id].
  - rewrite <- insert_delete_eq.
    rewrite map_fold_insert_L; [|intros; lia|apply lookup_delete_eq].
    rewrite (map_fold_delete_L _ _ k v h); [lia|intros; lia|exact Hk].
  - rewrite map_fold_insert_L; [lia|intros; lia|exact Hk].
Qed.

Lemma tally_total mcrts : forall names (h : gmap string Z),
  Z.of_nat (length mcrts) < 2 ^ 63 ->
  (forall k v, h !! k = Some v -> 0 < v /\ v + Z.of_nat (length mcrts) < 2 ^ 63) ->
  total (fold_left tally mcrts (names, h)).2 = total h + Z.of_nat (length mcrts).
Proof.
  induction mcrts as [|mcrt mcrts IH]; intros names h Hlen Hh;
    [cbn; lia|].
  cbn [fold_left]. unfold tally at 2.
  set (s := CertificateStatus (Status mcrt)).
  cbn [length] in Hlen, Hh |- *.
  assert (Hold : 0 <= default 0 (h !! s) /\
                 default 0 (h !! s) + Z.of_nat (Datatypes.S (length mcrts)) < 2 ^ 63).
  { destruct (h !! s) as [v|] eqn:Hv; cbn [default from_option id].
    - destruct (Hh s v Hv). lia.
    - lia. }
  rewrite wrap_int_small by lia.
  rewrite IH.
  - rewrite total_increment. lia.
  - lia.
  - intros k v. rewrite lookup_insert_Some.
    intros [[_ <-]|[_ Hv]]; [lia|].
    destruct (Hh k v Hv). lia.
Qed.

Lemma count_status_le status mcrts :
  (count_status status mcrts <= length mcrts)%nat.
Proof. unfold count_status. apply List.filter_length_le. Qed.

Lemma count_status_pos status mcrts :
  (0 < count_status status mcrts)%nat <->
  exists mcrt, mcrt ∈ mcrts /\ CertificateStatus (Status mcrt) = status.
Proof.
  unfold count_status. induction mcrts as [|m mcrts IH]; cbn [List.filter length].
  - split; [lia|]. intros (mcrt & Hin & _). apply elem_of_nil in Hin. destruct Hin.
  - destruct (String.eqb_spec (CertificateStatus (Status m)) status) as [Heq|Hne].
    + cbn [length]. split; [|lia]. intros _. exists m. split; [left|exact Heq].
    + rewrite IH. split.
      * intros (mcrt & Hin & Hs). exists mcrt. split; [right; exact Hin|exact Hs].
      * intros (mcrt & Hin & Hs). apply elem_of_cons in Hin as [->|Hin];
          [contradiction|]. exists mcrt. auto.
Qed.

(** X13. The histogram that [enqueueAll] reports is the histogram of the
    listing: it has a key exactly for the certificate statuses that occur
    among the listed resources, every count is at least one, and the counts
    add up to the number of listed resources (for a listing of fewer than
    2^63 resources, beyond which the counter would wrap). *)
Theorem histogram_of_listing mcrts :
  Z.of_nat (length mcrts) < 2 ^ 63 ->
  let statuses := (fold_left tally mcrts ([], ∅)).2 in
  (forall status,
      is_Some (statuses !! status) <->
      exists mcrt, mcrt ∈ mcrts /\ CertificateStatus (Status mcrt) = status) /\
  (forall status n,
      statuses !! status = Some n -> 1 <= n <= Z.of_nat (length mcrts)) /\
  total statuses = Z.of_nat (length mcrts).
Proof.
  intros Hlen statuses.
  assert (Hempty : forall k v, (∅ : gmap string Z) !! k = Some v ->
                     0 < v /\ v + Z.of_nat (length mcrts) < 2 ^ 63)
    by (intros k v; rewrite lookup_empty; discriminate).
  assert (Hlookup : forall status,
             statuses !! status =
             match count_status status mcrts with
             | O => None
             | n => Some (Z.of_nat n)
             end).
  { intros status. subst statuses.
    rewrite (tally_counts mcrts [] ∅ Hlen Hempty), lookup_empty. cbn.
    destruct (count_status status mcrts); reflexivity. }
  split; [|split].
  - intros status. rewrite Hlookup, <- count_status_pos.
    destruct (count_status status mcrts) as [|n]; split.
    + intros [v Hv]. discriminate.
    + lia.
    + lia.
    + intros _. eexists. reflexivity.
  - intros status n. rewrite Hlookup.
    pose proof (count_status_le status mcrts) as Hle.
    destruct (count_status status mcrts) as [|m]; [discriminate|].
    intros [= <-]. lia.
  - subst statuses. rewrite (tally_total mcrts [] ∅ Hlen Hempty).
    unfold total. rewrite map_fold_empty. lia.
Qed.

End ResyncMore.

(** ** More on the processing loop *)

Section WorkerMore.
Import controller.
Context {S : Type}.
Variable MetaNamespaceKeyFunc : interface -> string * option error.
Variable SplitMetaNamespaceKey : string -> string * string * option error.
Variable typeName : interface -> string.
Variable c : controller S.

Local Abbreviation handle_ := (handle SplitMetaNamespaceKey c).
Local Abbreviation processNext :=
  (processNextManagedCertificate SplitMetaNamespaceKey typeName c).

Lemma handle_run key st :
  handle_ key st =
  match SplitMetaNamespaceKey key with
  | (_, _, Some err) => (Some err, st, [])
  | (namespace, name, None) =>
      ((ManagedCertificate_ (sync c) (NewCertId namespace name) st).1,
       (ManagedCertificate_ (sync c) (NewCertId namespace name) st).2,
       [sync_ManagedCertificate (NewCertId namespace name)])
  end.
Proof.
  unfold handle, bind, call, ret.
  destruct (SplitMetaNamespaceKey key) as [[namespace name] [err|]]; [reflexivity|].
  destruct (ManagedCertificate_ _ _ _) as [[err|] st']; reflexivity.
Qed.

(** X14. [handle] returns no error exactly when the key parses and the
    reconciliation engine, called on the parsed (namespace, name), returns
    none. A key that does not parse is answered with the parse error and
    the engine is not called; otherwise the engine is called once and its
    answer is returned unchanged. *)
Theorem handle_outcome key st :
  (result (handle_ key st) = None <->
   exists namespace name,
     SplitMetaNamespaceKey key = (namespace, name, None) /\
     (ManagedCertificate_ (sync c) (NewCertId namespace name) st).1 = None) /\
  (forall namespace name err,
      SplitMetaNamespaceKey key = (namespace, name, Some err) ->
      handle_ key st = (Some err, st, [])) /\
  (forall namespace name,
      SplitMetaNamespaceKey key = (namespace, name, None) ->
      events (handle_ key st) = [sync_ManagedCertificate (NewCertId namespace name)] /\
      result (handle_ key st)
      = (ManagedCertificate_ (sync c) (NewCertId namespace name) st).1 /\
      state (handle_ key st)
      = (ManagedCertificate_ (sync c) (NewCertId namespace name) st).2).
Proof.
  rewrite handle_run.
  destruct (SplitMetaNamespaceKey key) as [[namespace name] [err|]] eqn:HSplit.
  - split; [|split].
    + split; [discriminate|]. intros (ns & n & H & _). discriminate H.
    + intros ns n e [= _ _ <-]. reflexivity.
    + intros ns n H. discriminate H.
  - split; [|split].
    + cbn. split.
      * intros H. exists namespace, name. auto.
      * intros (ns & n & [= <- <-] & H). exact H.
    + intros ns n e H. discriminate H.
    + intros ns n [= <- <-]. repeat split; reflexivity.
Qed.

(** The outcome of one iteration, by what [Get] returned. *)
Lemma processNext_run st :
  processNext st =
  let '((obj, shutdown), st1) := Get (queue c) st in
  if shutdown then (tt, st1, [queue_Get])
  else
    match obj with
    | of_string key =>
        match handle_ key st1 with
        | (None, st2, evs) =>
            (tt, Done (queue c) obj (Forget (queue c) obj st2),
             queue_Get :: evs ++ [queue_Forget obj; queue_Done obj])
        | (Some err, st2, evs) =>
            (tt, Done (queue c) obj (AddRateLimited (queue c) obj st2),
             queue_Get :: evs ++ [queue_AddRateLimited obj;
                                  runtime_HandleError err; queue_Done obj])
        end
    | _ =>
        (tt, Done (queue c) obj (Forget (queue c) obj st1),
         [queue_Get; queue_Forget obj;
          runtime_HandleError
            (errorString ("Expected string in queue but got " +:+ typeName obj));
          queue_Done obj])
    end.
Proof.
  unfold processNextManagedCertificate, bind at 1, call.
  destruct (Get (queue c) st) as [[obj [|]] st1]; [reflexivity|].
  destruct obj as [key|mcrt|t]; try reflexivity.
  unfold defer, bind, call_, ret.
  destruct (handle SplitMetaNamespaceKey c key st1) as [[[err|] st2] evs];
    cbn; rewrite <- ?app_assoc; reflexivity.
Qed.

Lemma handle_events_sync_only key st (p : event -> bool) :
  (forall id, p (sync_ManagedCertificate id) = false) ->
  List.filter p (events (handle_ key st)) = [].
Proof.
  intros Hp. rewrite handle_run.
  destruct (SplitMetaNamespaceKey key) as [[namespace name] [err|]];
    cbn; rewrite ?Hp; reflexivity.
Qed.

(** X15. An iteration that took an item from the queue either forgets it
    or adds it again, never both and never neither, and always that very
    item: it is added again exactly when it is a string key for which
    [handle] returned an error, and forgotten in every other case. An
    iteration that found the queue shutting down does neither. *)
Theorem processNext_forget_xor_retry st :
  let obj := (Get (queue c) st).1.1 in
  let shutdown := (Get (queue c) st).1.2 in
  let failed :=
    match obj with
    | of_string key =>
        match result (handle_ key (Get (queue c) st).2) with
        | Some _ => true
        | None => false
        end
    | _ => false
    end in
  List.filter is_Forget (events (processNext st)) =
    (if shutdown then [] else if failed then [] else [queue_Forget obj]) /\
  List.filter is_enqueue (events (processNext st)) =
    (if shutdown then [] else if failed then [queue_AddRateLimited obj] else []).
Proof.
  rewrite processNext_run.
  destruct (Get (queue c) st) as [[obj [|]] st1]; cbn [fst snd];
    [split; reflexivity|].
  destruct obj as [key|mcrt|t]; [|split; reflexivity..].
  pose proof (handle_events_sync_only key st1 is_Forget (fun _ => eq_refl)) as HF.
  pose proof (handle_events_sync_only key st1 is_enqueue (fun _ => eq_refl)) as HE.
  destruct (handle SplitMetaNamespaceKey c key st1) as [[[err|] st2] evs];
    cbn in HF, HE |- *; rewrite !List.filter_app, ?HF, ?HE; split; reflexivity.
Qed.

(** X16. An iteration reports to the error sink exactly when it does not
    succeed: nothing on shutdown and nothing when [handle] returns no
    error; otherwise exactly one report, of the error [handle] returned or,
    for an item that is not a string, of the type mismatch. *)
Theorem processNext_error_reports st :
  let obj := (Get (queue c) st).1.1 in
  let shutdown := (Get (queue c) st).1.2 in
  List.filter is_HandleError (events (processNext st)) =
    if shutdown then []
    else
      match obj with
      | of_string key =>
          match result (handle_ key (Get (queue c) st).2) with
          | Some err => [runtime_HandleError err]
          | None => []
          end
      | _ =>
          [runtime_HandleError
             (errorString ("Expected string in queue but got " +:+ typeName obj))]
      end.
Proof.
  rewrite processNext_run.
  destruct (Get (queue c) st) as [[obj [|]] st1]; cbn [fst snd]; [reflexivity|].
  destruct obj as [key|mcrt|t]; [|reflexivity..].
  pose proof (handle_events_sync_only key st1 is_HandleError (fun _ => eq_refl)) as HH.
  destruct (handle SplitMetaNamespaceKey c key st1) as [[[err|] st2] evs];
    cbn in HH |- *; rewrite !List.filter_app, ?HH; reflexivity.
Qed.

(** X17. An iteration calls the reconciliation engine at most once, and
    only for a string key that parses, on the (namespace, name) it parses
    into: never on shutdown, never for an item that is not a string, never
    for a key that does not parse. *)
Theorem processNext_engine_calls st :
  let obj := (Get (queue c) st).1.1 in
  let shutdown := (Get (queue c) st).1.2 in
  List.filter is_sync (events (processNext st)) =
    if shutdown then []
    else
      match obj with
      | of_string key =>
          match SplitMetaNamespaceKey key with
          | (namespace, name, None) =>
              [sync_ManagedCertificate (NewCertId namespace name)]
          | _ => []
          end
      | _ => []
      end.
Proof.
  rewrite processNext_run.
  destruct (Get (queue c) st) as [[obj [|]] st1]; cbn [fst snd]; [reflexivity|].
  destruct obj as [key|mcrt|t]; [|reflexivity..].
  rewrite handle_run.
  destruct (SplitMetaNamespaceKey key) as [[namespace name] [err|]];
    [reflexivity|].
  destruct (ManagedCertificate_ _ _ _) as [[err|] st2]; reflexivity.
Qed.

(** X18. Enqueueing and processing fit together: when the key derived from
    a resource parses back into the resource's namespace and name, the key
    that [enqueue] adds for the resource is one for which a later iteration
    calls the reconciliation engine on exactly that resource's identifier. *)
Theorem enqueued_key_reconciles_its_resource mcrt key :
  MetaNamespaceKeyFunc (of_ManagedCertificate mcrt) = (key, None) ->
  SplitMetaNamespaceKey key = (Namespace mcrt, Name mcrt, None) ->
  (forall st,
      List.filter is_enqueue
        (events (enqueue MetaNamespaceKeyFunc c (of_ManagedCertificate mcrt) st))
      = [queue_AddRateLimited (of_string key)]) /\
  (forall st st1,
      Get (queue c) st = ((of_string key, false), st1) ->
      List.filter is_sync (events (processNext st))
      = [sync_ManagedCertificate (NewCertId (Namespace mcrt) (Name mcrt))]).
Proof.
  intros HKey HSplit. split.
  - intros st. rewrite enqueue_events_ok. unfold enqueue_events.
    rewrite HKey. reflexivity.
  - intros st st1 HGet. rewrite processNext_run, HGet, handle_run, HSplit.
    destruct (ManagedCertificate_ _ _ _) as [[err|] st2]; reflexivity.
Qed.

End WorkerMore.

(** ** The further properties on concrete clusters *)

Section OnClustersMore.
Import controller examples.

Lemma enqueue_outcome_witness :
  events (enqueue cache.MetaNamespaceKeyFunc cluster_controller
            (of_ManagedCertificate site) no_certificate) =
    [glog_Infof "Enqueuing ManagedCertificate: %+v" (of_ManagedCertificate site);
     queue_AddRateLimited (of_string "default/site")] /\
  state (enqueue cache.MetaNamespaceKeyFunc cluster_controller
           (of_other "int") no_certificate) = no_certificate.
Proof.
  split.
  - eapply (enqueue_outcome cache.MetaNamespaceKeyFunc cluster_controller
              (of_ManagedCertificate site) no_certificate).
    reflexivity.
  - eapply (enqueue_outcome cache.MetaNamespaceKeyFunc cluster_controller
              (of_other "int") no_certificate).
    reflexivity.
Defined.

Lemma enqueueAll_adds_listed_keys_witness :
  List.filter is_enqueue
    (events (enqueueAll cache.MetaNamespaceKeyFunc cluster_controller
               two_certificates)) =
    [queue_AddRateLimited (of_string "default/site");
     queue_AddRateLimited (of_string "default/shop")].
Proof.
  destruct (enqueueAll_adds_listed_keys cache.MetaNamespaceKeyFunc
              cluster_controller two_certificates [site; shop] two_certificates
              eq_refl) as (_ & Hall & _).
  apply Hall. intros mcrt _. unfold cache.MetaNamespaceKeyFunc.
  destruct (0 <? _); reflexivity.
Defined.

Lemma histogram_of_listing_witness :
  total (fold_left tally [site; shop; site] ([], ∅)).2 = 3 /\
  ((fold_left tally [site; shop; site] ([], ∅)).2 !! "RenewalFailed" = None).
Proof.
  destruct (histogram_of_listing [site; shop; site] eq_refl)
    as (Hkeys & _ & Htotal).
  split; [exact Htotal|].
  destruct (_ !! "RenewalFailed") as [n|] eqn:Hn; [|reflexivity].
  destruct (proj1 (Hkeys "RenewalFailed") (ex_intro _ n Hn))
    as (mcrt & Hin & Hstatus).
  apply list_elem_of_In in Hin.
  destruct Hin as [<-|[<-|[<-|[]]]]; discriminate Hstatus.
Defined.

Lemma handle_outcome_witness :
  handle cache.SplitMetaNamespaceKey cluster_controller "a/b/c"
    malformed_key_queued
  = (Some (errorString ("unexpected key format: "
                        +:+ cache.quote +:+ "a/b/c" +:+ cache.quote)),
     malformed_key_queued, []) /\
  events (handle cache.SplitMetaNamespaceKey cluster_controller "default/site"
            (site_queued always_fails))
  = [sync_ManagedCertificate (NewCertId "default" "site")].
Proof.
  split.
  - eapply (handle_outcome cache.SplitMetaNamespaceKey cluster_controller
              "a/b/c" malformed_key_queued).
    reflexivity.
  - eapply (handle_outcome cache.SplitMetaNamespaceKey cluster_controller
              "default/site" (site_queued always_fails)).
    reflexivity.
Defined.

Lemma enqueued_key_reconciles_its_resource_witness :
  List.filter is_sync
    (events (processNextManagedCertificate cache.SplitMetaNamespaceKey typeName
               cluster_controller (site_queued always_succeeds)))
  = [sync_ManagedCertificate (NewCertId "default" "site")].
Proof.
  destruct (enqueued_key_reconciles_its_resource cache.MetaNamespaceKeyFunc
              cache.SplitMetaNamespaceKey typeName cluster_controller
              site "default/site" eq_refl eq_refl) as [_ Hprocess].
  eapply Hprocess. reflexivity.
Defined.

End OnClustersMore.

Lemma New_succeeds_iff_witness :
  is_Some (config.New surroundings.env_gke "/etc/gce.conf").1 /\
  ~ is_Some (config.New surroundings.env_bad_credentials "").1.
Proof.
  split.
  - apply (New_succeeds_iff surroundings.env_gke "/etc/gce.conf").
    left. split; [discriminate|]. split; reflexivity.
  - intros H.
    apply (New_succeeds_iff surroundings.env_bad_credentials "") in H.
    destruct H as [(H & _)|(_ & _ & [H|H])];
      [apply H; reflexivity|discriminate H|discriminate H].
Defined.
